(** * AWSNotesApp: the DynamoDB note store of [application.py]

    The development embeds the class [DynamoNotes] (constructor with key
    schema discovery, [create], [get], [list], [update], [delete]) and the
    web handler [add] as functions in a state-and-exception monad, and
    states what the specification says about them.

    The store talks to a boto3 table resource.  That collaborator is an
    interface here (class [Backend]); [table] is an in-memory instance of it
    that follows the contract of the key-value table the store is written
    against: put replaces the item with the same full key, get and delete
    address an item by its exact key, scan returns every item or those whose
    attribute equals a value, update applies the [SET] assignments of an
    update expression and answers the resulting item. *)

From Stdlib Require Import String Ascii ZArith Sorted.
From stdpp Require Import base strings gmap list fin_maps.

Open Scope string_scope.
Open Scope list_scope.

(** A DynamoDB item, and a Python [dict] with string keys and values. *)
Abbreviation item := (gmap string string).

(** ** Python values and exceptions *)

(** The exception classes the program raises, catches or lets through.  All
    of them derive from [Exception]. *)
Inductive exn : Type :=
| StorageError (msg : string)
| ValueError (msg : string)
| BotoCoreError (msg : string)
| ClientError (msg : string)
| AttributeError (msg : string)
| TypeError (msg : string)
| OtherException (cls msg : string).

(** [str(e)] *)
Definition str_exn (e : exn) : string :=
  match e with
  | StorageError m | ValueError m | BotoCoreError m | ClientError m
  | AttributeError m | TypeError m | OtherException _ m => m
  end.

Inductive result (A : Type) : Type :=
| Ok (a : A)
| Raise (e : exn).
Arguments Ok {A} a.
Arguments Raise {A} e.

Definition is_ok {A} (r : result A) : bool :=
  match r with Ok _ => true | Raise _ => false end.

(** Truthiness of an [Optional[str]]: [None] and the empty string are
    falsy. *)
Definition truthy (s : option string) : bool :=
  match s with
  | Some (String _ _) => true
  | _ => false
  end.

(** [a or b] for an [Optional[str]] [a] and a string [b]. *)
Definition or_str (a : option string) (b : string) : string :=
  if truthy a then default b a else b.

(** [a or b] where both are [Optional[str]]. *)
Definition or_opt (a b : option string) : option string :=
  if truthy a then a else b.

(** Values a stub or a service answer can hold: what [describe_table] and the
    resource attribute [key_schema] return is not typed in Python. *)
#[local] Unset Elimination Schemes.
Inductive pyval : Type :=
| PNone
| PStr (s : string)
| PInt (z : Z)
| PList (l : list pyval)
| PDict (d : list (string * pyval)).
#[local] Set Elimination Schemes.

Definition py_truthy (v : pyval) : bool :=
  match v with
  | PNone | PStr "" | PInt 0%Z | PList [] | PDict [] => false
  | _ => true
  end.

Definition py_of_opt (s : option string) : pyval :=
  match s with
  | Some s => PStr s
  | None => PNone
  end.

(** [v == s] for a string literal [s]. *)
Definition py_eq_str (v : pyval) (s : string) : bool :=
  match v with
  | PStr s' => bool_decide (s' = s)
  | _ => false
  end.

Fixpoint assoc (k : string) (d : list (string * pyval)) : option pyval :=
  match d with
  | [] => None
  | (k', v) :: d' => if bool_decide (k' = k) then Some v else assoc k d'
  end.

(** [v.get(k, dflt)]: only a dict has the method. *)
Definition py_get (v : pyval) (k : string) (dflt : pyval) : result pyval :=
  match v with
  | PDict d => Ok (default dflt (assoc k d))
  | _ => Raise (AttributeError "object has no attribute 'get'")
  end.

Fixpoint chars (s : string) : list pyval :=
  match s with
  | EmptyString => []
  | String c s' => PStr (String c EmptyString) :: chars s'
  end.

(** The elements [for entry in v] runs over. *)
Definition py_iter (v : pyval) : result (list pyval) :=
  match v with
  | PList l => Ok l
  | PDict d => Ok (map (fun kv => PStr (fst kv)) d)
  | PStr s => Ok (chars s)
  | PNone | PInt _ => Raise (TypeError "object is not iterable")
  end.

(** ** The monad of the program: state and exceptions *)

Definition M (S A : Type) : Type := S -> result A * S.

Definition ret {S A} (a : A) : M S A := fun s => (Ok a, s).
Definition raise {S A} (e : exn) : M S A := fun s => (Raise e, s).
Definition bind {S A B} (m : M S A) (k : A -> M S B) : M S B :=
  fun s =>
    match m s with
    | (Ok a, s') => k a s'
    | (Raise e, s') => (Raise e, s')
    end.
Definition lift {S A} (r : result A) : M S A := fun s => (r, s).
Definition modify {S} (f : S -> S) : M S unit := fun s => (Ok tt, f s).
Definition gets {S A} (f : S -> A) : M S A := fun s => (Ok (f s), s).

Declare Scope py_scope.
Delimit Scope py_scope with py.
Notation "x <- c ;; k" := (bind c (fun x => k))
  (at level 100, c at next level, right associativity) : py_scope.
Notation "c ;; k" := (bind c (fun _ => k))
  (at level 100, right associativity) : py_scope.
Open Scope py_scope.

(** [try: body  except Exception: pass] *)
Definition try_pass {S} (body : M S unit) : M S unit :=
  fun s =>
    match body s with
    | (Raise _, s') => (Ok tt, s')
    | r => r
    end.

Definition is_boto_error (e : exn) : bool :=
  match e with
  | BotoCoreError _ | ClientError _ => true
  | _ => false
  end.

(** [try: body  except (BotoCoreError, ClientError) as e:
      raise StorageError(str(e)) from e] *)
Definition try_storage {S A} (body : M S A) : M S A :=
  fun s =>
    match body s with
    | (Raise e, s') =>
        if is_boto_error e then (Raise (StorageError (str_exn e)), s')
        else (Raise e, s')
    | r => r
    end.

(** ** The table resource, as the store sees it *)

(** The remote calls of the five operations.  [Scan None] is [scan()],
    [Scan (Some (a, v))] is [scan(FilterExpression=Attr(a).eq(v))];
    [UpdateItem] is always sent with [ReturnValues="ALL_NEW"]. *)
Inductive call : Type :=
| PutItem (Item : item)
| GetItem (Key : item)
| Scan (FilterExpression : option (string * string))
| UpdateItem (Key : item) (UpdateExpression : string)
    (ExpressionAttributeValues : item)
| DeleteItem (Key : item).

(** What a table resource does with a call: it answers or raises, and moves
    to a new state.  The answers are the parts of the response the store
    reads: [resp.get("Item")], [resp.get("Items")], [resp.get("Attributes")]. *)
Class Backend (B : Type) : Type := {
  put_item : item -> M B unit;
  get_item : item -> M B (option item);
  scan : option (string * string) -> M B (option (list item));
  update_item : item -> string -> item -> M B (option item);
  delete_item : item -> M B unit
}.

(** The table resource together with the record of the calls it received. *)
Record world (B : Type) : Type := World {
  backend : B;
  calls : list call
}.
Arguments World {B} backend calls.
Arguments backend {B} w.
Arguments calls {B} w.

Definition remote {B A} (c : call) (op : M B A) : M (world B) A :=
  fun w => let (r, b) := op (backend w) in (r, World b (calls w ++ [c])).

(** What the constructor reads from the resource: the attribute
    [key_schema] (reading it may raise) and the client's [describe_table]. *)
Record table_resource : Type := TableResource {
  key_schema : result pyval;
  describe_table : string -> result pyval
}.

(** The module [boto3], when the import succeeded:
    [boto3.resource("dynamodb").Table(table_name)]. *)
Record boto3_module : Type := Boto3 {
  resource_Table : string -> result table_resource
}.

(** The readings one call takes from the clock and from the identifier
    generator: [now_iso()] and [str(uuid.uuid4())]. *)
Record readings : Type := Readings {
  now_iso : string;
  uuid4 : string
}.

(** ** class DynamoNotes *)

Module DynamoNotes.

(** The attributes [self.key_name] and [self.sort_key_name] while the
    constructor runs: discovery stores whatever the schema entry holds. *)
Record attrs : Type := Attrs {
  self_key_name : pyval;
  self_sort_key_name : pyval
}.

(** [getattr(self.table, "key_schema", None)] *)
Definition getattr_key_schema (tbl : table_resource) : result pyval :=
  match key_schema tbl with
  | Raise (AttributeError _) => Ok PNone
  | r => r
  end.

(** The body of [for entry in ks]. *)
Fixpoint for_entries (ks : list pyval) : M attrs unit :=
  match ks with
  | [] => ret tt
  | entry :: rest =>
      kt <- lift (py_get entry "KeyType" PNone);;
      (if py_eq_str kt "HASH" then
         cur <- gets self_key_name;;
         v <- lift (py_get entry "AttributeName" cur);;
         modify (fun s => Attrs v (self_sort_key_name s))
       else
         kt' <- lift (py_get entry "KeyType" PNone);;
         sk <- gets self_sort_key_name;;
         if py_eq_str kt' "RANGE" && negb (py_truthy sk) then
           v <- lift (py_get entry "AttributeName" PNone);;
           modify (fun s => Attrs (self_key_name s) v)
         else ret tt);;
      for_entries rest
  end.

(** The body of the [try] in [__init__]. *)
Definition discover (tbl : table_resource) (table_name : string)
  : M attrs unit :=
  ks <- lift (getattr_key_schema tbl);;
  ks <- (if negb (py_truthy ks) then
           desc <- lift (describe_table tbl table_name);;
           t <- lift (py_get desc "Table" (PDict []));;
           lift (py_get t "KeySchema" PNone)
         else ret ks);;
  if py_truthy ks then
    entries <- lift (py_iter ks);;
    for_entries entries
  else ret tt.

(** [__init__(self, table_name, key_name, sort_key_name)] *)
Definition init (boto3 : option boto3_module) (table_name : string)
    (key_name sort_key_name : option string) : result attrs :=
  match boto3 with
  | None =>
      Raise (StorageError
        "boto3 is not installed. Install requirements.txt and try again.")
  | Some b =>
      match resource_Table b table_name with
      | Raise e => Raise e
      | Ok tbl =>
          let self := Attrs (PStr (or_str key_name "id"))
                            (py_of_opt sort_key_name) in
          match try_pass (discover tbl table_name) self with
          | (Ok _, self') => Ok self'
          | (Raise e, _) => Raise e
          end
      end
  end.

(** A constructed store whose key names are strings, as the annotations
    [key_name: Optional[str]], [sort_key_name: Optional[str]] say.  The
    five operations are modelled for these stores. *)
Record t : Type := Store {
  key_name : string;
  sort_key_name : option string
}.

Definition of_attrs (a : attrs) : option t :=
  match self_key_name a, self_sort_key_name a with
  | PStr k, PNone => Some (Store k None)
  | PStr k, PStr s => Some (Store k (Some s))
  | _, _ => None
  end.

(** The name [self.sort_key_name] stands for where it passed [if
    self.sort_key_name]. *)
Definition sort_name (self : t) : string := default "" (sort_key_name self).

Section Operations.
Context {B : Type} `{Backend B}.

Definition create (self : t) (env : readings) (title content : string)
    (user_id item_id : option string) : M (world B) item :=
  let item_id := or_str item_id (uuid4 env) in
  let ts := now_iso env in
  let item : item :=
    <["updated_at" := ts]> (<["created_at" := ts]> (<["content" := content]>
      (<["title" := title]> {[ key_name self := item_id ]}))) in
  item <- (if truthy (sort_key_name self) then
             if negb (truthy user_id) then
               raise (StorageError ("Table requires sort key '" +:+
                 sort_name self +:+ "'; provide user_id"))
             else ret (<[sort_name self := default "" user_id]> item)
           else ret item);;
  try_storage (remote (PutItem item) (put_item item);; ret item).

(** [key = {self.key_name: item_id, self.sort_key_name: user_id}] after
    the check [user_id is None], or [{self.key_name: item_id}]. *)
Definition make_key (self : t) (item_id : string) (user_id : option string)
    (hint : string) : M (world B) item :=
  if truthy (sort_key_name self) then
    match user_id with
    | None =>
        raise (StorageError ("Table has sort key '" +:+ sort_name self +:+
          "'; provide --user-id to " +:+ hint))
    | Some u => ret (<[sort_name self := u]> {[ key_name self := item_id ]})
    end
  else ret {[ key_name self := item_id ]}.

Definition get (self : t) (item_id : string) (user_id : option string)
    : M (world B) (option item) :=
  try_storage (
    key <- make_key self item_id user_id "identify the item";;
    remote (GetItem key) (get_item key)).

Definition update (self : t) (env : readings) (item_id : string)
    (title content user_id : option string) : M (world B) item :=
  if bool_decide (title = None) && bool_decide (content = None) then
    raise (ValueError
      "At least one of title or content must be provided for update")
  else
    let expr_vals : item := {[ ":u" := now_iso env ]} in
    let update_expr := "SET updated_at = :u" in
    let '(update_expr, expr_vals) :=
      match title with
      | Some t => (update_expr +:+ ", title = :t", <[":t" := t]> expr_vals)
      | None => (update_expr, expr_vals)
      end in
    let '(update_expr, expr_vals) :=
      match content with
      | Some c => (update_expr +:+ ", content = :c", <[":c" := c]> expr_vals)
      | None => (update_expr, expr_vals)
      end in
    try_storage (
      key <- make_key self item_id user_id "update the item";;
      resp <- remote (UpdateItem key update_expr expr_vals)
                (update_item key update_expr expr_vals);;
      ret (default (∅ : item) resp)).

Definition delete (self : t) (item_id : string) (user_id : option string)
    : M (world B) unit :=
  try_storage (
    key <- make_key self item_id user_id "delete the item";;
    remote (DeleteItem key) (delete_item key)).

Definition list (self : t) (user_id : option string)
    : M (world B) (Datatypes.list item) :=
  try_storage (
    resp <- (if truthy user_id && truthy (sort_key_name self) then
               let f := Some (sort_name self, default "" user_id) in
               remote (Scan f) (scan f)
             else remote (Scan None) (scan None));;
    ret (default [] resp)).

End Operations.

End DynamoNotes.

(** ** The web handler [add] of [_make_flask_app] *)

Inductive http_response : Type :=
| Response (body : string) (status : nat)
| Redirect (endpoint : string).

Section Web.
Context {B : Type} `{Backend B}.

(** [request.form] is a dict of the posted fields. *)
Definition add (store : DynamoNotes.t) (default_user_id : option string)
    (env : readings) (form : item) : M (world B) http_response :=
  let title := form !! "title" in
  let content := form !! "content" in
  let user_id := or_opt (form !! "user_id") default_user_id in
  let client_id := or_opt (form !! "client_id") None in
  if negb (truthy title) || negb (truthy content) then
    ret (Response "title and content required" 400)
  else
    DynamoNotes.create store env (default "" title) (default "" content)
      user_id client_id;;
    ret (Redirect "index").
End Web.

(** ** An in-memory table *)

(** The table has its own key schema, holds its items in scan order, and
    carries a script of transport faults: every call takes the head of the
    script, and fails with it if it is an exception.  A call whose key or item
    does not fit the key schema fails with a [ClientError], as the service's
    validation does: a key attribute must be there and must not hold the
    empty string.  A scan answers one page: the items it reads before their
    sizes pass one megabyte. *)
Record table : Type := Table {
  hash_name : string;
  range_name : option string;
  items : list item;
  faults : list (option exn)
}.

Definition set_items (l : list item) (t : table) : table :=
  Table (hash_name t) (range_name t) l (faults t).

Definition set_faults (f : list (option exn)) (t : table) : table :=
  Table (hash_name t) (range_name t) (items t) f.

Definition transport {A} (op : M table A) : M table A :=
  fun t =>
    match faults t with
    | [] => op t
    | None :: fs => op (set_faults fs t)
    | Some e :: fs => (Raise e, set_faults fs t)
    end.

Definition key_attrs (t : table) : gset string :=
  match range_name t with
  | Some r => {[ hash_name t; r ]}
  | None => {[ hash_name t ]}
  end.

(** The full key of an item: the value of the partition key and, on a table
    with a sort key, the value of the sort key. *)
Definition key_of (t : table) (it : item) : option (string * option string) :=
  h ← it !! hash_name t;
  match range_name t with
  | None => Some (h, None)
  | Some r => s ← it !! r; Some (h, Some s)
  end.

(** The service refuses the empty string as the value of a key
    attribute. *)
Definition nonempty_key (k : string * option string) : bool :=
  negb (bool_decide (k.1 = "")) && negb (bool_decide (k.2 = Some "")).

(** A [Key] argument must hold the key attributes and nothing else, and no
    empty value. *)
Definition is_key (t : table) (key : item) : bool :=
  bool_decide (dom key = key_attrs t) &&
  match key_of t key with
  | Some k => nonempty_key k
  | None => false
  end.

Definition other_key (t : table) (k : option (string * option string))
    (it : item) : Prop := key_of t it ≠ k.

Definition bears_key (t : table) (k : option (string * option string))
    (it : item) : Prop := key_of t it = k.

#[global] Instance other_key_dec t k it : Decision (other_key t k it).
Proof. unfold other_key. apply _. Defined.

#[global] Instance bears_key_dec t k it : Decision (bears_key t k it).
Proof. unfold bears_key. apply _. Defined.

Definition lookup_item (t : table) (k : option (string * option string))
    : option item :=
  head (filter (bears_key t k) (items t)).

Definition validation (msg : string) : exn :=
  ClientError ("ValidationException: " +:+ msg).

(** *** Update expressions

    The grammar the store uses: [SET a = :x, b = :y, ...]. *)

Fixpoint split_on (sep : string) (skip : nat) (cur : string) (s : string)
    : list string :=
  match s with
  | EmptyString => [cur]
  | String c s' =>
      match skip with
      | S n => split_on sep n cur s'
      | O =>
          if String.prefix sep s
          then cur :: split_on sep (String.length sep - 1) "" s'
          else split_on sep 0 (cur +:+ String c "") s'
      end
  end.

Definition parse_assign (s : string) : option (string * string) :=
  match split_on " = " 0 "" s with
  | [a; p] => Some (a, p)
  | _ => None
  end.

Definition parse_set (e : string) : option (list (string * string)) :=
  if String.prefix "SET " e
  then mapM parse_assign
         (split_on ", " 0 "" (String.substring 4 (String.length e - 4) e))
  else None.

(** Each placeholder is looked up in [ExpressionAttributeValues]. *)
Definition resolve (vals : item) (assigns : list (string * string))
    : option (list (string * string)) :=
  mapM (fun ap => v ← vals !! ap.2; Some (ap.1, v)) assigns.

Definition assign (it : item) (av : string * string) : item :=
  <[av.1 := av.2]> it.

Definition touches_key (t : table) (assigns : list (string * string)) : bool :=
  existsb (fun av => bool_decide (av.1 ∈ key_attrs t)) assigns.

(** *** The five calls *)

Definition tbl_put (it : item) : M table unit :=
  transport (fun t =>
    match key_of t it with
    | None => (Raise (validation "missing key attribute in Item"), t)
    | Some k =>
        if nonempty_key k
        then (Ok tt,
              set_items (filter (other_key t (Some k)) (items t) ++ [it]) t)
        else (Raise (validation "empty string value for a key attribute"), t)
    end).

Definition tbl_get (key : item) : M table (option item) :=
  transport (fun t =>
    if is_key t key
    then (Ok (lookup_item t (key_of t key)), t)
    else (Raise (validation "Key does not match the schema"), t)).

(** The size of an item: the bytes of its attribute names and values. *)
Definition item_size (it : item) : N :=
  map_fold (fun (a v : string) (n : N) =>
              n + N.of_nat (String.length a) + N.of_nat (String.length v))%N
    0%N it.

Definition total_size (l : list item) : N :=
  foldr (fun it n => item_size it + n)%N 0%N l.

(** One megabyte, the size of a scan page. *)
Definition page_bytes : N := 1048576%N.

(** The page a scan reads: the items, in scan order, up to the first one
    that would pass the budget. *)
Fixpoint scan_page (budget : N) (l : list item) : list item :=
  match l with
  | [] => []
  | it :: rest =>
      if (item_size it <=? budget)%N
      then it :: scan_page (budget - item_size it) rest
      else []
  end.

(** The filter is applied to the page that was read; the key to go on from
    is in the answer, but the store does not read it. *)
Definition tbl_scan (f : option (string * string))
    : M table (option (list item)) :=
  transport (fun t =>
    let page := scan_page page_bytes (items t) in
    match f with
    | None => (Ok (Some page), t)
    | Some (a, v) =>
        (Ok (Some (filter (fun it : item => it !! a = Some v) page)), t)
    end).

(** An update of a key that is not in the table creates the item from the
    key and the assignments, as DynamoDB does. *)
Definition tbl_update (key : item) (expr : string) (vals : item)
    : M table (option item) :=
  transport (fun t =>
    if is_key t key then
      match parse_set expr ≫= resolve vals with
      | None => (Raise (validation "invalid UpdateExpression"), t)
      | Some assigns =>
          if touches_key t assigns
          then (Raise (validation "cannot update a key attribute"), t)
          else
            let old := default key (lookup_item t (key_of t key)) in
            let new := foldl assign old assigns in
            (Ok (Some new),
             set_items
               (filter (other_key t (key_of t key)) (items t) ++ [new]) t)
      end
    else (Raise (validation "Key does not match the schema"), t)).

Definition tbl_delete (key : item) : M table unit :=
  transport (fun t =>
    if is_key t key
    then (Ok tt, set_items (filter (other_key t (key_of t key)) (items t)) t)
    else (Raise (validation "Key does not match the schema"), t)).

#[global] Instance table_backend : Backend table := {
  put_item := tbl_put;
  get_item := tbl_get;
  scan := tbl_scan;
  update_item := tbl_update;
  delete_item := tbl_delete
}.

(** The key schema the table shows to the constructor. *)
Definition schema_entry (name kind : string) : pyval :=
  PDict [("AttributeName", PStr name); ("KeyType", PStr kind)].

Definition table_schema (t : table) : pyval :=
  PList (schema_entry (hash_name t) "HASH" ::
         match range_name t with
         | Some r => [schema_entry r "RANGE"]
         | None => []
         end).

Definition resource_of (t : table) : table_resource :=
  TableResource (Ok (table_schema t))
    (fun _ => Ok (PDict [("Table", PDict [("KeySchema", table_schema t)])])).

Example parse_set_title :
  parse_set "SET updated_at = :u, title = :t"
  = Some [("updated_at", ":u"); ("title", ":t")].
Proof. reflexivity. Qed.

Example parse_set_both :
  parse_set "SET updated_at = :u, title = :t, content = :c"
  = Some [("updated_at", ":u"); ("title", ":t"); ("content", ":c")].
Proof. reflexivity. Qed.

(** ** What the operations send

    Closed forms of the arguments the operations pass to the table, used to
    state what a call did. *)

(** The item [create] builds and writes. *)
Definition created_item (self : DynamoNotes.t) (env : readings)
    (title content : string) (user_id item_id : option string) : item :=
  let base : item :=
    <["updated_at" := now_iso env]> (<["created_at" := now_iso env]>
      (<["content" := content]> (<["title" := title]>
        {[ DynamoNotes.key_name self := or_str item_id (uuid4 env) ]}))) in
  if truthy (DynamoNotes.sort_key_name self)
  then <[DynamoNotes.sort_name self := default "" user_id]> base
  else base.

(** The key [get], [update] and [delete] address on a store with a sort
    key, and on one without. *)
Definition full_key (self : DynamoNotes.t) (item_id u : string) : item :=
  <[DynamoNotes.sort_name self := u]> {[ DynamoNotes.key_name self := item_id ]}.

Definition plain_key (self : DynamoNotes.t) (item_id : string) : item :=
  {[ DynamoNotes.key_name self := item_id ]}.

(** The update expression and the values [update] sends. *)
Definition update_expr (title content : option string) : string :=
  ("SET updated_at = :u"
     +:+ match title with Some _ => ", title = :t" | None => "" end)
     +:+ match content with Some _ => ", content = :c" | None => "" end.

Definition update_vals (env : readings) (title content : option string)
    : item :=
  let v0 : item := {[ ":u" := now_iso env ]} in
  let v1 := match title with Some t => <[":t" := t]> v0 | None => v0 end in
  match content with Some c => <[":c" := c]> v1 | None => v1 end.

Definition is_storage_error (e : exn) : bool :=
  match e with
  | StorageError _ => true
  | _ => false
  end.

(** ** The store and the table it was configured for *)

(** The store was set up for the table: its partition key name is the
    table's, the sort key name it uses is the table's sort key, and the
    table's two key attributes are different attributes, as the service
    demands of a key schema. *)
Definition agrees (self : DynamoNotes.t) (t : table) : Prop :=
  DynamoNotes.key_name self = hash_name t /\
  range_name t = (if truthy (DynamoNotes.sort_key_name self)
                  then DynamoNotes.sort_key_name self else None) /\
  range_name t <> Some (hash_name t).

(** No transport fault is pending. *)
Definition healthy (t : table) : Prop := faults t = [].

(** The items fit in one page of a scan. *)
Definition one_page (l : list item) : Prop := (total_size l <= page_bytes)%N.

(** The sort-key value an operation needs is there, as [create] tests it. *)
Definition sort_key_supplied (self : DynamoNotes.t) (user_id : option string)
    : Prop :=
  truthy (DynamoNotes.sort_key_name self) = true -> truthy user_id = true.

(** The full key of the note with this id and sort-key value. *)
Definition note_key (self : DynamoNotes.t) (item_id : string)
    (user_id : option string) : option (string * option string) :=
  Some (item_id,
        if truthy (DynamoNotes.sort_key_name self) then user_id else None).

(** [item[self.key_name]], the id of an item an operation returned. *)
Definition returned_id (self : DynamoNotes.t) (it : item) : string :=
  default "" (it !! DynamoNotes.key_name self).

(** What [list] asks the table for. *)
Definition list_filter (self : DynamoNotes.t) (user_id : option string)
    : option (string * string) :=
  if truthy user_id && truthy (DynamoNotes.sort_key_name self)
  then Some (DynamoNotes.sort_name self, default "" user_id)
  else None.

(** The attributes every note has besides its key. *)
Definition note_fields : list string :=
  ["title"; "content"; "created_at"; "updated_at"].

(** The key attributes of the table are none of the note's own fields. *)
Definition keys_apart (self : DynamoNotes.t) : Prop :=
  (DynamoNotes.key_name self ∉ note_fields) /\
  (truthy (DynamoNotes.sort_key_name self) = true ->
   DynamoNotes.sort_name self ∉ note_fields).

(** The assignments an update carries: [updated_at] always, then the
    supplied fields. *)
Definition assignments (env : readings) (title content : option string)
    : list (string * string) :=
  ("updated_at", now_iso env) ::
  (match title with Some v => [("title", v)] | None => [] end ++
   match content with Some v => [("content", v)] | None => [] end).

(** ** Sample data *)

Definition notes_store : DynamoNotes.t := DynamoNotes.Store "id" (Some "user_id").
Definition plain_store : DynamoNotes.t := DynamoNotes.Store "id" None.
Definition notes_table : table := Table "id" (Some "user_id") [] [].
Definition plain_table : table := Table "id" None [] [].
Definition noon : readings :=
  Readings "2026-01-01T12:00:00+00:00" "0b9f6f0e-5a3c-4c1e-9d52-7a1c2e4f8a10".
Definition later : readings :=
  Readings "2026-01-01T12:05:00+00:00" "5d2a9c41-77e0-4b8b-8f0a-1c3e5a7b9d22".

Definition groceries : item :=
  created_item notes_store noon "Groceries" "Milk, eggs" (Some "ana")
    (Some "n1").
Definition stocked_table : table := Table "id" (Some "user_id") [groceries] [].

(** A table resource whose key schema has a well-formed partition key entry
    followed by an entry that is not a dict. *)
Definition broken_resource : table_resource :=
  TableResource (Ok (PList [schema_entry "pk" "HASH"; PStr "oops"]))
    (fun _ => Raise (ClientError "ResourceNotFoundException")).

(** ** The other handlers of [_make_flask_app] *)

(** [try: body  except StorageError as e: ...]: the message of the caught
    error on the left, the value of the body on the right; any other
    exception goes on. *)
Definition catch_storage {S A} (body : M S A) : M S (string + A) :=
  fun s =>
    match body s with
    | (Ok a, s') => (Ok (inr a), s')
    | (Raise (StorageError m), s') => (Ok (inl m), s')
    | (Raise e, s') => (Raise e, s')
    end.

(** The parts of [flask.request] the handlers read. *)
Record request : Type := Request {
  method : string;
  args : item;
  form : item
}.

(** What a handler returns: a plain response, or a rendered template with
    its context. *)
Inductive view : Type :=
| Http (r : http_response)
| NotesPage (notes : list item) (key_name : string)
    (default_user_id : option string)
| EditPage (it : item) (key_name : string) (default_user_id : option string).

(** [x.get("created_at", "")] *)
Definition created_at (x : item) : string := default "" (x !! "created_at").

(** [sorted(items, key=lambda x: x.get("created_at", ""), reverse=True)].
    Python's sort is stable, with [reverse=True] too, and a stable sort has
    one result: the insertion sort below computes it.  Strings compare by
    code point, which is the order of their bytes. *)
Fixpoint insert_newest (x : item) (l : list item) : list item :=
  match l with
  | [] => [x]
  | y :: r =>
      if String.leb (created_at y) (created_at x)
      then x :: y :: r
      else y :: insert_newest x r
  end.

Definition sorted_newest_first (l : list item) : list item :=
  foldr insert_newest [] l.

Module FlaskApp.
Section Handlers.
Context {B : Type} `{Backend B}.
Variable store : DynamoNotes.t.
Variable default_user_id : option string.

Definition index : M (world B) view :=
  items <- DynamoNotes.list store default_user_id;;
  ret (NotesPage (sorted_newest_first items) (DynamoNotes.key_name store)
         default_user_id).

Definition delete (req : request) : M (world B) view :=
  let src := if bool_decide (method req = "GET") then args req else form req in
  let item_id := or_opt (src !! "id") (src !! "item_id") in
  let user_id := or_opt (src !! "user_id") default_user_id in
  if negb (truthy item_id) then ret (Http (Response "id required" 400))
  else
    r <- catch_storage
           (DynamoNotes.delete store (default "" item_id) user_id);;
    match r with
    | inl m => ret (Http (Response ("delete failed: " +:+ m) 500))
    | inr _ => ret (Http (Redirect "index"))
    end.

Definition edit (env : readings) (req : request) : M (world B) view :=
  if bool_decide (method req = "GET") then
    let item_id := or_opt (args req !! "id") (args req !! "item_id") in
    let user_id := or_opt (args req !! "user_id") default_user_id in
    if negb (truthy item_id) then ret (Http (Response "id required" 400))
    else
      r <- catch_storage
             (DynamoNotes.get store (default "" item_id) user_id);;
      match r with
      | inl m => ret (Http (Response ("fetch failed: " +:+ m) 500))
      | inr None => ret (Http (Response "not found" 404))
      | inr (Some it) =>
          if bool_decide (it = ∅) then ret (Http (Response "not found" 404))
          else ret (EditPage it (DynamoNotes.key_name store)
                      (or_opt default_user_id user_id))
      end
  else
    let item_id := or_opt (form req !! "id") (form req !! "item_id") in
    let user_id := or_opt (form req !! "user_id") default_user_id in
    let title := form req !! "title" in
    let content := form req !! "content" in
    if negb (truthy item_id) then ret (Http (Response "id required" 400))
    else
      r <- catch_storage
             (DynamoNotes.update store env (default "" item_id) title content
                user_id);;
      match r with
      | inl m => ret (Http (Response ("update failed: " +:+ m) 500))
      | inr _ => ret (Http (Redirect "index"))
      end.

End Handlers.
End FlaskApp.

(** ** The command line *)

(** What a call can raise on the command line: an exception, or the
    [SystemExit] of [sys.exit], which is no [Exception]. *)
Inductive signal : Type :=
| Exc (e : exn)
| SystemExit (code : Z).

Inductive outcome (A : Type) : Type :=
| Returned (a : A)
| Raised (s : signal).
Arguments Returned {A} a.
Arguments Raised {A} s.

(** What the commands print: [print(json.dumps(x, indent=2))] of an item and
    of a list of items, a line on the standard output, a line on the
    standard error, the help text of the parser. *)
Inductive output : Type :=
| PrintItem (it : item)
| PrintItems (l : list item)
| PrintLine (s : string)
| PrintErr (s : string)
| PrintHelp
| AppRun (store : DynamoNotes.t) (default_user_id : option string)
    (host : string) (port : Z).

(** The process: the table resource with its calls, and what was printed. *)
Record process (B : Type) : Type := Process {
  proc_world : world B;
  console : list output
}.
Arguments Process {B} proc_world console.
Arguments proc_world {B} p.
Arguments console {B} p.

Definition Cmd (B A : Type) : Type := process B -> outcome A * process B.

Definition p_ret {B A} (a : A) : Cmd B A := fun p => (Returned a, p).
Definition p_raise {B A} (s : signal) : Cmd B A := fun p => (Raised s, p).
Definition p_bind {B A C} (m : Cmd B A) (k : A -> Cmd B C) : Cmd B C :=
  fun p =>
    match m p with
    | (Returned a, p') => k a p'
    | (Raised s, p') => (Raised s, p')
    end.
Definition print {B} (o : output) : Cmd B unit :=
  fun p => (Returned tt, Process (proc_world p) (console p ++ [o])).

(** A call of a store operation from a command. *)
Definition call_store {B A} (m : M (world B) A) : Cmd B A :=
  fun p =>
    match m (proc_world p) with
    | (Ok a, w) => (Returned a, Process w (console p))
    | (Raise e, w) => (Raised (Exc e), Process w (console p))
    end.

(** A constructor call: it touches neither the table's items nor the
    console. *)
Definition call_new {B A} (r : result A) : Cmd B A :=
  fun p =>
    match r with
    | Ok a => (Returned a, p)
    | Raise e => (Raised (Exc e), p)
    end.

Declare Scope cli_scope.
Delimit Scope cli_scope with cli.
Notation "x <~ c ;; k" := (p_bind c (fun x => k))
  (at level 100, c at next level, right associativity) : cli_scope.
Notation "c ;;; k" := (p_bind c (fun _ => k))
  (at level 100, right associativity) : cli_scope.
Open Scope cli_scope.

(** The subcommand with its own arguments, as [build_parser] declares them:
    [--title] and [--content] are required for [add], [--id] for [get],
    [update] and [delete]. *)
Inductive command : Type :=
| CmdAdd (title content : string) (client_id : option string)
| CmdGet (id : string)
| CmdList
| CmdUpdate (id : string) (title content : option string)
| CmdDelete (id : string)
| CmdUi (host : string) (port : Z).

(** The parsed arguments: the common options and [args.func]. *)
Record namespace : Type := Namespace {
  ns_table : string;
  ns_key_name : option string;
  ns_sort_key : option string;
  ns_user_id : option string;
  ns_func : option command
}.

Module Cli.
Section Commands.
Context {B : Type} `{Backend B}.

(** [DynamoNotes(table_name=..., key_name=..., sort_key_name=...)] as the
    commands see it: a store whose key names are strings, or an exception. *)
Variable new_store : string -> option string -> option string ->
                     result DynamoNotes.t.
(** [Flask is None] is [flask = false]. *)
Variable flask : bool.

Definition get_store (args : namespace) : Cmd B DynamoNotes.t :=
  call_new (new_store (ns_table args) (ns_key_name args) (ns_sort_key args)).

Definition cmd_add (env : readings) (args : namespace)
    (title content : string) (client_id : option string) : Cmd B (option Z) :=
  store <~ get_store args;;
  it <~ call_store (DynamoNotes.create store env title content
                      (ns_user_id args) client_id);;
  print (PrintItem it);;;
  p_ret None.

Definition cmd_get (args : namespace) (id : string) : Cmd B (option Z) :=
  store <~ get_store args;;
  r <~ call_store (DynamoNotes.get store id (ns_user_id args));;
  match r with
  | Some it =>
      if bool_decide (it = ∅)
      then print (PrintErr "Note not found");;; p_raise (SystemExit 2)
      else print (PrintItem it);;; p_ret None
  | None => print (PrintErr "Note not found");;; p_raise (SystemExit 2)
  end.

Definition cmd_list (args : namespace) : Cmd B (option Z) :=
  store <~ get_store args;;
  items <~ call_store (DynamoNotes.list store (ns_user_id args));;
  print (PrintItems items);;;
  p_ret None.

Definition cmd_update (env : readings) (args : namespace) (id : string)
    (title content : option string) : Cmd B (option Z) :=
  store <~ get_store args;;
  it <~ call_store (DynamoNotes.update store env id title content
                      (ns_user_id args));;
  print (PrintItem it);;;
  p_ret None.

Definition cmd_delete (args : namespace) (id : string) : Cmd B (option Z) :=
  store <~ get_store args;;
  call_store (DynamoNotes.delete store id (ns_user_id args));;;
  print (PrintLine "deleted");;;
  p_ret None.

(** [app.run] serves until it is stopped; it is one event of the console
    here, and what happens while it serves is not modelled. *)
Definition cmd_ui (args : namespace) (host : string) (port : Z)
    : Cmd B (option Z) :=
  if negb flask then
    print (PrintErr
      "flask not installed. Install requirements.txt to use the web UI.");;;
    p_ret (Some 2%Z)
  else
    store <~ get_store args;;
    print (AppRun store (ns_user_id args) host port);;;
    p_ret None.

(** [args.func(args)] *)
Definition func (env : readings) (args : namespace) (c : command)
    : Cmd B (option Z) :=
  match c with
  | CmdAdd title content client_id => cmd_add env args title content client_id
  | CmdGet id => cmd_get args id
  | CmdList => cmd_list args
  | CmdUpdate id title content => cmd_update env args id title content
  | CmdDelete id => cmd_delete args id
  | CmdUi host port => cmd_ui args host port
  end.

(** [main(argv)], after [parser.parse_args(argv)] returned [args]. *)
Definition main (env : readings) (args : namespace) : Cmd B Z :=
  match ns_func args with
  | None => print PrintHelp;;; p_ret 1%Z
  | Some c =>
      fun p =>
        match func env args c p with
        | (Returned _, p') => (Returned 0%Z, p')
        | (Raised (Exc (StorageError m)), p') =>
            (print (PrintErr ("Storage error: " +:+ m));;; p_ret 3%Z) p'
        | (Raised (Exc e), p') =>
            (print (PrintErr ("Error: " +:+ str_exn e));;; p_ret 4%Z) p'
        | (Raised (SystemExit c), p') => (Raised (SystemExit c), p')
        end
  end.

End Commands.
End Cli.

(** The key [get], [update] and [delete] send once the sort-key check has
    passed. *)
Definition the_key (self : DynamoNotes.t) (item_id : string)
    (user_id : option string) : item :=
  if truthy (DynamoNotes.sort_key_name self)
  then full_key self item_id (default "" user_id)
  else plain_key self item_id.

(** What an operation raises when its remote call raised [e]. *)
Definition surfaced (e : exn) : exn :=
  if is_boto_error e then StorageError (str_exn e) else e.

(** A table whose next call fails with a service error. *)
Definition throttled_table : table :=
  Table "id" (Some "user_id") [groceries]
    [Some (ClientError "ProvisionedThroughputExceededException")].

(** A table whose next call fails inside the client with an exception that
    is none of boto3's. *)
Definition crashing_table : table :=
  Table "id" (Some "user_id") [groceries]
    [Some (OtherException "ConnectionResetError" "connection reset by peer")].

(** The key schema the constructor ends up with before its loop: the
    attribute of the resource, or the answer of [describe_table] when the
    attribute is missing or falsy. *)
Definition read_schema (tbl : table_resource) (table_name : string)
    : result pyval :=
  match DynamoNotes.getattr_key_schema tbl with
  | Raise e => Raise e
  | Ok ks =>
      if negb (py_truthy ks) then
        match describe_table tbl table_name with
        | Raise e => Raise e
        | Ok desc =>
            match py_get desc "Table" (PDict []) with
            | Raise e => Raise e
            | Ok t => py_get t "KeySchema" PNone
            end
        end
      else Ok ks
  end.

(** The entries the loop of the constructor runs over: none when the schema
    could not be read, is falsy or cannot be iterated. *)
Definition seen_entries (tbl : table_resource) (table_name : string)
    : list pyval :=
  match read_schema tbl table_name with
  | Ok ks =>
      if py_truthy ks
      then match py_iter ks with Ok l => l | Raise _ => [] end
      else []
  | Raise _ => []
  end.

(** A resource without the attribute [key_schema], whose client describes the
    table [notes_table]. *)
Definition described_resource : table_resource :=
  TableResource (Raise (AttributeError "key_schema"))
    (fun _ => Ok (PDict [("Table",
                          PDict [("KeySchema", table_schema notes_table)])])).

(** A resource whose schema cannot be read at all. *)
Definition silent_resource : table_resource :=
  TableResource (Ok PNone)
    (fun _ => Raise (ClientError "ResourceNotFoundException")).

(** [x] may stand before [y] in the page: it is at least as new. *)
Definition not_older (x y : item) : Prop :=
  String.leb (created_at y) (created_at x) = true.

Definition breakfast : item :=
  created_item notes_store later "Breakfast" "Oats" (Some "ana") (Some "n2").
Definition pantry_table : table :=
  Table "id" (Some "user_id") [groceries; breakfast] [].

(** The outcome is a [StorageError] that was let out. *)
Definition lets_out_storage_error {A} (r : result A) : bool :=
  match r with
  | Raise (StorageError _) => true
  | _ => false
  end.

(** Posted forms and query strings. *)
Definition posted_note : item :=
  {[ "id" := "n1"; "title" := "Groceries"; "content" := "Milk" ]}.
Definition posted_nothing : item := {[ "id" := "n1"; "user_id" := "ana" ]}.
Definition posted_blank_title : item :=
  {[ "id" := "n1"; "user_id" := "ana"; "title" := "" ]}.
Definition query_unknown : item := {[ "id" := "n7" ]}.

(** The constructor on a table that shows its key schema, with boto3
    installed: the store [DynamoNotes.init] builds there. *)
Definition new_store_on (t : table) (table_name : string)
    (key_name sort_key_name : option string) : result DynamoNotes.t :=
  match DynamoNotes.init (Some (Boto3 (fun _ => Ok (resource_of t))))
          table_name key_name sort_key_name with
  | Ok a =>
      match DynamoNotes.of_attrs a with
      | Some store => Ok store
      | None => Raise (TypeError "key names are not strings")
      end
  | Raise e => Raise e
  end.

(** The constructor when boto3 could not be imported. *)
Definition new_store_without_boto3 (table_name : string)
    (key_name sort_key_name : option string) : result DynamoNotes.t :=
  match DynamoNotes.init None table_name key_name sort_key_name with
  | Ok a => Raise (TypeError "unreachable")
  | Raise e => Raise e
  end.

(** The parsed arguments of a subcommand given with no common option. *)
Definition bare_args (c : command) : namespace :=
  Namespace "Notes_Table" None None None (Some c).

(** The exit statuses [main] returns, and the one [sys.exit] carries. *)
Definition is_exit_status (o : outcome Z) : bool :=
  match o with
  | Returned z => bool_decide (z ∈ [0; 1; 3; 4]%Z)
  | Raised (SystemExit c) => bool_decide (c = 2%Z)
  | Raised (Exc _) => false
  end.

(** The fields the handler [delete] reads: the query string of a GET, the
    form of any other request. *)
Definition delete_fields (req : request) : item :=
  if bool_decide (method req = "GET") then args req else form req.

Definition query_n1 : item := {[ "id" := "n1"; "user_id" := "ana" ]}.

(** * Properties *)

Ltac run :=
  unfold DynamoNotes.create, DynamoNotes.get, DynamoNotes.update,
    DynamoNotes.delete, DynamoNotes.list, DynamoNotes.make_key,
    try_storage, bind, remote, ret, raise, lift; simpl.

(** ** The exception handler of the operations *)

Lemma try_storage_ok {S A} (body : M S A) s a s' :
  body s = (Ok a, s') -> try_storage body s = (Ok a, s').
Proof. unfold try_storage. by intros ->. Qed.

(** A failure of boto3 leaves the operation as a [StorageError] with the
    same message. *)
Lemma try_storage_wraps {S A} (body : M S A) s e s' :
  body s = (Raise e, s') -> is_boto_error e = true ->
  try_storage body s = (Raise (StorageError (str_exn e)), s').
Proof. unfold try_storage. by intros -> ->. Qed.

(** Any other exception passes through as it is. *)
Lemma try_storage_passes {S A} (body : M S A) s e s' :
  body s = (Raise e, s') -> is_boto_error e = false ->
  try_storage body s = (Raise e, s').
Proof. unfold try_storage. by intros -> ->. Qed.

(** ** Failures raised before any remote call *)

Section Guards.
Context {B : Type} `{Backend B}.
Implicit Types (self : DynamoNotes.t) (w : world B) (env : readings).

Lemma update_nothing self env item_id user_id w :
  DynamoNotes.update self env item_id None None user_id w
  = (Raise (ValueError
       "At least one of title or content must be provided for update"), w).
Proof. reflexivity. Qed.

Lemma create_without_sort_key self env title content user_id item_id w :
  truthy (DynamoNotes.sort_key_name self) = true ->
  truthy user_id = false ->
  DynamoNotes.create self env title content user_id item_id w
  = (Raise (StorageError ("Table requires sort key '" +:+
       DynamoNotes.sort_name self +:+ "'; provide user_id")), w).
Proof. intros Hs Hu. run. rewrite Hs, Hu. reflexivity. Qed.

Lemma make_key_none self item_id hint w :
  truthy (DynamoNotes.sort_key_name self) = true ->
  DynamoNotes.make_key self item_id None hint w
  = (Raise (StorageError ("Table has sort key '" +:+
       DynamoNotes.sort_name self +:+ "'; provide --user-id to " +:+ hint)),
     w).
Proof. intros Hs. unfold DynamoNotes.make_key. rewrite Hs. reflexivity. Qed.

Lemma make_key_some self item_id u hint w :
  truthy (DynamoNotes.sort_key_name self) = true ->
  DynamoNotes.make_key self item_id (Some u) hint w
  = (Ok (<[DynamoNotes.sort_name self := u]>
           {[ DynamoNotes.key_name self := item_id ]}), w).
Proof. intros Hs. unfold DynamoNotes.make_key. rewrite Hs. reflexivity. Qed.

Lemma make_key_plain self item_id user_id hint w :
  truthy (DynamoNotes.sort_key_name self) = false ->
  DynamoNotes.make_key self item_id user_id hint w
  = (Ok {[ DynamoNotes.key_name self := item_id ]}, w).
Proof. intros Hs. unfold DynamoNotes.make_key. rewrite Hs. reflexivity. Qed.

Lemma get_without_sort_key self item_id w :
  truthy (DynamoNotes.sort_key_name self) = true ->
  exists m, DynamoNotes.get self item_id None w = (Raise (StorageError m), w).
Proof.
  intros Hs. eexists. unfold DynamoNotes.get, try_storage, bind.
  rewrite make_key_none by done. reflexivity.
Qed.

Lemma delete_without_sort_key self item_id w :
  truthy (DynamoNotes.sort_key_name self) = true ->
  exists m,
    DynamoNotes.delete self item_id None w = (Raise (StorageError m), w).
Proof.
  intros Hs. eexists. unfold DynamoNotes.delete, try_storage, bind.
  rewrite make_key_none by done. reflexivity.
Qed.

Lemma update_without_sort_key self env item_id title content w :
  truthy (DynamoNotes.sort_key_name self) = true ->
  title <> None \/ content <> None ->
  exists m,
    DynamoNotes.update self env item_id title content None w
    = (Raise (StorageError m), w).
Proof.
  intros Hs Hf. eexists. unfold DynamoNotes.update.
  destruct title, content; simpl;
    try (destruct Hf; congruence);
    unfold try_storage, bind; rewrite make_key_none by done; reflexivity.
Qed.

(** Once the sort-key check has passed, [create] is one [put_item] of the
    built item, whatever the title and the content are. *)
Lemma create_run self env title content user_id item_id w :
  (truthy (DynamoNotes.sort_key_name self) = true -> truthy user_id = true) ->
  DynamoNotes.create self env title content user_id item_id w
  = let it := created_item self env title content user_id item_id in
    try_storage (remote (PutItem it) (put_item it);; ret it) w.
Proof.
  intros Hu. unfold DynamoNotes.create, created_item.
  destruct (truthy (DynamoNotes.sort_key_name self)) eqn:Hs.
  - rewrite Hu by done. reflexivity.
  - reflexivity.
Qed.

Lemma create_ok self env title content user_id item_id w b' :
  (truthy (DynamoNotes.sort_key_name self) = true -> truthy user_id = true) ->
  put_item (created_item self env title content user_id item_id) (backend w)
  = (Ok tt, b') ->
  DynamoNotes.create self env title content user_id item_id w
  = (Ok (created_item self env title content user_id item_id),
     World b' (calls w ++
       [PutItem (created_item self env title content user_id item_id)])).
Proof.
  intros Hu Hput. rewrite create_run by done. simpl.
  unfold try_storage, bind, remote. rewrite Hput. reflexivity.
Qed.

Lemma get_run self item_id user_id key w :
  DynamoNotes.make_key self item_id user_id "identify the item" w
  = (Ok key, w) ->
  DynamoNotes.get self item_id user_id w
  = try_storage (remote (GetItem key) (get_item key)) w.
Proof.
  intros Hk. unfold DynamoNotes.get, try_storage, bind. rewrite Hk.
  reflexivity.
Qed.

Lemma delete_run self item_id user_id key w :
  DynamoNotes.make_key self item_id user_id "delete the item" w
  = (Ok key, w) ->
  DynamoNotes.delete self item_id user_id w
  = try_storage (remote (DeleteItem key) (delete_item key)) w.
Proof.
  intros Hk. unfold DynamoNotes.delete, try_storage, bind. rewrite Hk.
  reflexivity.
Qed.

Lemma update_run self env item_id title content user_id key w :
  title <> None \/ content <> None ->
  DynamoNotes.make_key self item_id user_id "update the item" w
  = (Ok key, w) ->
  DynamoNotes.update self env item_id title content user_id w
  = try_storage (
      resp <- remote
        (UpdateItem key (update_expr title content)
           (update_vals env title content))
        (update_item key (update_expr title content)
           (update_vals env title content));;
      ret (default (∅ : item) resp)) w.
Proof.
  intros Hf Hk. unfold DynamoNotes.update, update_expr, update_vals.
  destruct title, content; simpl;
    try (destruct Hf; congruence);
    unfold try_storage, bind; rewrite Hk; reflexivity.
Qed.

End Guards.

(** C2: an update that carries neither a title nor a content raises
    [ValueError], the invalid-argument failure of the program, and leaves the
    table resource and the record of its calls as they were: no remote call
    is made, whatever the backend and its state are. *)
Theorem update_without_fields_is_invalid :
  forall (B : Type) (HB : Backend B) (self : DynamoNotes.t) (env : readings)
         (item_id : string) (user_id : option string) (w : world B),
    DynamoNotes.update self env item_id None None user_id w
    = (Raise (ValueError
         "At least one of title or content must be provided for update"), w).
Proof. intros. apply update_nothing. Qed.

(** C1, as stated, fails: on a table with a sort key, [get] without a
    sort-key value raises an exception of the class [StorageError], the class
    of the backend failures, not one of a kind of its own. *)
Lemma missing_sort_key_is_not_a_distinct_kind :
  ~ (exists e,
       (DynamoNotes.get notes_store "n1" None (World notes_table [])).1
       = Raise e /\ is_storage_error e = false).
Proof.
  intros (e & He & Hk).
  destruct (get_without_sort_key (B := table) notes_store "n1"
              (World notes_table []) eq_refl) as (m & Hm).
  rewrite Hm in He. injection He as <-. discriminate Hk.
Qed.

(** C1, amended: on a store with a sort key, [create], [get] and [delete]
    called without a sort-key value, and [update] called without one but with
    a title or a content, raise [StorageError] and make no remote call; with a
    non-empty sort-key value each of the four makes its one remote call, with
    the sort-key value in the key, and succeeds when that call does. *)
Theorem missing_sort_key_raises_storage_error :
  forall (B : Type) (HB : Backend B) (self : DynamoNotes.t) (env : readings)
         (title content item_id u : string) (cid t c : option string)
         (w : world B),
    truthy (DynamoNotes.sort_key_name self) = true ->
    t <> None \/ c <> None ->
    u <> "" ->
    ((exists m, DynamoNotes.create self env title content None cid w
                = (Raise (StorageError m), w)) /\
     (exists m, DynamoNotes.get self item_id None w
                = (Raise (StorageError m), w)) /\
     (exists m, DynamoNotes.update self env item_id t c None w
                = (Raise (StorageError m), w)) /\
     (exists m, DynamoNotes.delete self item_id None w
                = (Raise (StorageError m), w))) /\
    (forall b',
       put_item (created_item self env title content (Some u) cid) (backend w)
       = (Ok tt, b') ->
       DynamoNotes.create self env title content (Some u) cid w
       = (Ok (created_item self env title content (Some u) cid),
          World b' (calls w ++
            [PutItem (created_item self env title content (Some u) cid)]))) /\
    (forall r b',
       get_item (full_key self item_id u) (backend w) = (Ok r, b') ->
       DynamoNotes.get self item_id (Some u) w
       = (Ok r, World b' (calls w ++ [GetItem (full_key self item_id u)]))) /\
    (forall r b',
       update_item (full_key self item_id u) (update_expr t c)
         (update_vals env t c) (backend w) = (Ok r, b') ->
       DynamoNotes.update self env item_id t c (Some u) w
       = (Ok (default (∅ : item) r),
          World b' (calls w ++
            [UpdateItem (full_key self item_id u) (update_expr t c)
               (update_vals env t c)]))) /\
    (forall b',
       delete_item (full_key self item_id u) (backend w) = (Ok tt, b') ->
       DynamoNotes.delete self item_id (Some u) w
       = (Ok tt, World b' (calls w ++ [DeleteItem (full_key self item_id u)]))).
Proof.
  intros B HB self env title content item_id u cid t c w Hs Hf Hu.
  assert (Htu : truthy (Some u) = true) by (destruct u; [congruence | done]).
  split; [repeat split |repeat split].
  - eexists. apply create_without_sort_key; done.
  - by apply get_without_sort_key.
  - by apply update_without_sort_key.
  - by apply delete_without_sort_key.
  - intros b' Hput. by apply create_ok.
  - intros r b' Hget.
    rewrite (get_run _ _ _ (full_key self item_id u))
      by (by apply make_key_some).
    unfold try_storage, remote. rewrite Hget. reflexivity.
  - intros r b' Hupd.
    rewrite (update_run _ _ _ _ _ _ (full_key self item_id u))
      by (done || by apply make_key_some).
    unfold try_storage, bind, remote. rewrite Hupd. reflexivity.
  - intros b' Hdel.
    rewrite (delete_run _ _ _ (full_key self item_id u))
      by (by apply make_key_some).
    unfold try_storage, remote. rewrite Hdel. reflexivity.
Qed.

(** ** The in-memory table *)

Section TableFacts.
Implicit Types (t : table) (it key : item) (l : list item).

Lemma transport_healthy {A} (op : M table A) t :
  healthy t -> transport op t = op t.
Proof. unfold healthy, transport. intros ->. reflexivity. Qed.

Lemma key_of_set_items l t it : key_of (set_items l t) it = key_of t it.
Proof. reflexivity. Qed.

Lemma healthy_set_items l t : healthy t -> healthy (set_items l t).
Proof. done. Qed.

Lemma filter_bears_other t k l :
  filter (bears_key t k) (filter (other_key t k) l) = [].
Proof.
  induction l as [|x l IH]; [done|].
  rewrite (filter_cons (other_key t k)).
  destruct (decide (other_key t k x)) as [Ho|Ho]; [|done].
  rewrite filter_cons. destruct (decide (bears_key t k x)); [|done].
  unfold other_key, bears_key in *. congruence.
Qed.

Lemma filter_bears_other_ne t k k' l :
  k <> k' ->
  filter (bears_key t k) (filter (other_key t k') l)
  = filter (bears_key t k) l.
Proof.
  intros Hne. induction l as [|x l IH]; [done|].
  rewrite (filter_cons (other_key t k')), (filter_cons (bears_key t k)).
  destruct (decide (other_key t k' x)) as [Ho|Ho].
  - rewrite filter_cons. destruct (decide (bears_key t k x)); by rewrite IH.
  - destruct (decide (bears_key t k x)) as [Hb|Hb]; [|done].
    unfold other_key, bears_key in *. destruct Ho. congruence.
Qed.

Lemma filter_other_absent t k l :
  filter (bears_key t k) l = [] -> filter (other_key t k) l = l.
Proof.
  induction l as [|x l IH]; [done|].
  rewrite filter_cons. destruct (decide (bears_key t k x)) as [Hb|Hb]; [done|].
  intros Hl. rewrite filter_cons.
  destruct (decide (other_key t k x)) as [Ho|Ho].
  - by rewrite IH.
  - destruct Ho. exact Hb.
Qed.

(** After a put, exactly one item bears the key: the one just written. *)
Lemma bearers_after_put t k it l :
  key_of t it = k ->
  filter (bears_key t k) (filter (other_key t k) l ++ [it]) = [it].
Proof.
  intros Hk. rewrite filter_app, filter_bears_other. simpl.
  rewrite filter_cons. destruct (decide (bears_key t k it)) as [|Hn]; [done|].
  by destruct Hn.
Qed.

Lemma tbl_put_ok t it k :
  healthy t -> key_of t it = Some k -> nonempty_key k = true ->
  tbl_put it t
  = (Ok tt, set_items (filter (other_key t (Some k)) (items t) ++ [it]) t).
Proof.
  intros Hh Hk Hne. unfold tbl_put. rewrite transport_healthy by done.
  by rewrite Hk, Hne.
Qed.

Lemma is_key_intro t key k :
  dom key = key_attrs t -> key_of t key = Some k -> nonempty_key k = true ->
  is_key t key = true.
Proof.
  intros Hd Hk Hne. unfold is_key. rewrite Hk, Hne, andb_true_r.
  by apply bool_decide_eq_true.
Qed.

(** A page that holds the whole table. *)
Lemma scan_page_all budget l :
  (total_size l <= budget)%N -> scan_page budget l = l.
Proof.
  revert budget. induction l as [|it l IH]; intros budget Hfit; [done|].
  simpl in *.
  assert (Hle : (item_size it <=? budget)%N = true) by (apply N.leb_le; lia).
  rewrite Hle, IH; [done|lia].
Qed.

Lemma total_size_app l1 l2 :
  total_size (l1 ++ l2) = (total_size l1 + total_size l2)%N.
Proof.
  induction l1 as [|it l1 IH]; simpl; [done|]. rewrite IH. lia.
Qed.

Lemma total_size_filter (P : item -> Prop) `{!forall x, Decision (P x)} l :
  (total_size (filter P l) <= total_size l)%N.
Proof.
  induction l as [|it l IH]; simpl; [done|].
  rewrite filter_cons. destruct (decide (P it)); simpl; lia.
Qed.

(** A table that fits in one page with one more item still fits after the
    item was put or stored by an update. *)
Lemma one_page_after_put (P : item -> Prop) `{!forall x, Decision (P x)}
    l it :
  (total_size l + item_size it <= page_bytes)%N ->
  one_page (filter P l ++ [it]).
Proof.
  intros Hfit. unfold one_page. rewrite total_size_app. simpl.
  pose proof (total_size_filter P l). lia.
Qed.

Lemma tbl_get_ok t key :
  healthy t -> is_key t key = true ->
  tbl_get key t = (Ok (lookup_item t (key_of t key)), t).
Proof.
  intros Hh Hk. unfold tbl_get. rewrite transport_healthy by done.
  by rewrite Hk.
Qed.

Lemma tbl_delete_ok t key :
  healthy t -> is_key t key = true ->
  tbl_delete key t
  = (Ok tt, set_items (filter (other_key t (key_of t key)) (items t)) t).
Proof.
  intros Hh Hk. unfold tbl_delete. rewrite transport_healthy by done.
  by rewrite Hk.
Qed.

Lemma tbl_scan_ok t f :
  healthy t -> one_page (items t) ->
  tbl_scan f t
  = (Ok (Some (match f with
               | None => items t
               | Some (a, v) =>
                   filter (fun it : item => it !! a = Some v) (items t)
               end)), t).
Proof.
  intros Hh Hp. unfold tbl_scan. rewrite transport_healthy by done.
  rewrite scan_page_all by done.
  by destruct f as [[a v]|].
Qed.

Lemma lookup_after_put t k it l :
  key_of t it = k ->
  lookup_item (set_items (filter (other_key t k) l ++ [it]) t) k = Some it.
Proof.
  intros Hk. exact (f_equal head (bearers_after_put t k it l Hk)).
Qed.

End TableFacts.

(** ** The store on the table it was configured for *)

Section StoreOnTable.
Implicit Types (self : DynamoNotes.t) (t : table) (it key : item).

Lemma truthy_some (o : option string) :
  truthy o = true -> exists s, o = Some s /\ s <> "".
Proof. destruct o as [[|a s]|]; try done. intros _. by eexists. Qed.

Lemma agrees_sorted self t :
  agrees self t -> truthy (DynamoNotes.sort_key_name self) = true ->
  DynamoNotes.key_name self = hash_name t /\
  range_name t = Some (DynamoNotes.sort_name self) /\
  DynamoNotes.sort_name self <> DynamoNotes.key_name self.
Proof.
  intros (Hk & Hr & Hd) Hs. rewrite Hs in Hr.
  destruct (truthy_some _ Hs) as (s & Hsk & _).
  unfold DynamoNotes.sort_name. rewrite Hsk in *. simpl.
  repeat split; [done..|]. intros ->. apply Hd. by rewrite Hr, Hk.
Qed.

Lemma agrees_plain self t :
  agrees self t -> truthy (DynamoNotes.sort_key_name self) = false ->
  DynamoNotes.key_name self = hash_name t /\ range_name t = None.
Proof. intros (Hk & Hr & _) Hs. by rewrite Hs in Hr. Qed.

Lemma key_of_sorted t it h r s :
  range_name t = Some r -> it !! hash_name t = Some h -> it !! r = Some s ->
  key_of t it = Some (h, Some s).
Proof. intros Hr Hh Hs. unfold key_of. rewrite Hh, Hr. simpl. by rewrite Hs. Qed.

Lemma key_of_plain t it h :
  range_name t = None -> it !! hash_name t = Some h ->
  key_of t it = Some (h, None).
Proof. intros Hr Hh. unfold key_of. by rewrite Hh, Hr. Qed.

(** The key the store builds is a key of the table, and it is the full key
    of the note. *)
Lemma full_key_agrees self t item_id u :
  agrees self t -> truthy (DynamoNotes.sort_key_name self) = true ->
  dom (full_key self item_id u) = key_attrs t /\
  key_of t (full_key self item_id u) = note_key self item_id (Some u).
Proof.
  intros Ha Hs. destruct (agrees_sorted _ _ Ha Hs) as (Hk & Hr & Hd).
  unfold note_key. rewrite Hs. split.
  - unfold key_attrs, full_key. rewrite Hr, <- Hk.
    rewrite dom_insert_L, dom_singleton_L.
    apply (comm_L (∪)).
  - apply key_of_sorted with (r := DynamoNotes.sort_name self); [done|..];
      unfold full_key.
    + rewrite <- Hk. rewrite lookup_insert_ne by done.
      apply lookup_singleton_eq.
    + apply lookup_insert_eq.
Qed.

Lemma plain_key_agrees self t item_id user_id :
  agrees self t -> truthy (DynamoNotes.sort_key_name self) = false ->
  dom (plain_key self item_id) = key_attrs t /\
  key_of t (plain_key self item_id) = note_key self item_id user_id.
Proof.
  intros Ha Hs. destruct (agrees_plain _ _ Ha Hs) as (Hk & Hr).
  unfold note_key. rewrite Hs. split.
  - unfold key_attrs, plain_key. rewrite Hr, <- Hk.
    apply dom_singleton_L.
  - apply key_of_plain; [done|]. rewrite <- Hk. apply lookup_singleton_eq.
Qed.

(** The full key of a note with a non-empty id and, where the table has a
    sort key, a non-empty sort-key value, has no empty value. *)
Lemma note_key_nonempty self item_id user_id :
  item_id <> "" -> sort_key_supplied self user_id ->
  nonempty_key
    (item_id,
     if truthy (DynamoNotes.sort_key_name self) then user_id else None)
  = true.
Proof.
  intros Hid Hu. unfold nonempty_key. simpl.
  rewrite bool_decide_eq_false_2 by done. simpl.
  apply negb_true_iff, bool_decide_eq_false.
  destruct (truthy (DynamoNotes.sort_key_name self)) eqn:Hs; [|done].
  destruct (truthy_some _ (Hu Hs)) as (u & -> & Hne). congruence.
Qed.

(** With the sort-key value it needs, the store builds a key that has the
    attributes of the table's key and is the full key of the note; the table
    takes it as a key when the id and the sort-key value are not empty. *)
Lemma make_key_agrees {B} self t item_id user_id hint (w : world B) :
  agrees self t ->
  (truthy (DynamoNotes.sort_key_name self) = true -> user_id <> None) ->
  exists key,
    DynamoNotes.make_key self item_id user_id hint w = (Ok key, w) /\
    (item_id <> "" -> sort_key_supplied self user_id -> is_key t key = true) /\
    key_of t key = note_key self item_id user_id.
Proof.
  intros Ha Hu.
  assert (Hex : exists key,
            DynamoNotes.make_key self item_id user_id hint w = (Ok key, w) /\
            dom key = key_attrs t /\
            key_of t key = note_key self item_id user_id).
  { destruct (truthy (DynamoNotes.sort_key_name self)) eqn:Hs.
    - destruct user_id as [u|]; [|by destruct Hu].
      exists (full_key self item_id u). split.
      + unfold DynamoNotes.make_key. by rewrite Hs.
      + by apply full_key_agrees.
    - exists (plain_key self item_id). split.
      + unfold DynamoNotes.make_key. by rewrite Hs.
      + by apply plain_key_agrees. }
  destruct Hex as (key & Hmk & Hd & Hk). exists key.
  split; [done|]. split; [|done].
  intros Hid Hsup. apply (is_key_intro t key _ Hd Hk).
  by apply note_key_nonempty.
Qed.

Lemma supplied_not_none self user_id :
  sort_key_supplied self user_id ->
  truthy (DynamoNotes.sort_key_name self) = true -> user_id <> None.
Proof. intros Hu Hs. specialize (Hu Hs). by destruct user_id. Qed.

Lemma lookup_insert_keeps (m : item) a v j :
  is_Some (m !! j) -> is_Some (<[a := v]> m !! j).
Proof.
  intros Hj. destruct (decide (a = j)) as [->|Hne].
  - rewrite lookup_insert_eq. by eexists.
  - by rewrite lookup_insert_ne.
Qed.

(** The item [create] builds carries an id under the partition key name,
    and its full key is that of the note with this id. *)
Lemma created_item_key self t env title content user_id item_id :
  agrees self t -> sort_key_supplied self user_id ->
  exists rid,
    created_item self env title content user_id item_id
      !! DynamoNotes.key_name self = Some rid /\
    key_of t (created_item self env title content user_id item_id)
    = note_key self rid user_id.
Proof.
  intros Ha Hu. unfold created_item, note_key.
  set (base := <["updated_at" := _]> _).
  assert (Hb : is_Some (base !! DynamoNotes.key_name self)).
  { subst base. do 4 apply lookup_insert_keeps.
    rewrite lookup_singleton_eq. by eexists. }
  destruct Hb as [rid Hrid].
  destruct (truthy (DynamoNotes.sort_key_name self)) eqn:Hs.
  - destruct (agrees_sorted _ _ Ha Hs) as (Hk & Hr & Hd).
    destruct (truthy_some _ (Hu Hs)) as (u & -> & _). simpl.
    exists rid. split.
    + by rewrite lookup_insert_ne.
    + apply key_of_sorted with (r := DynamoNotes.sort_name self); [done|..].
      * rewrite <- Hk. by rewrite lookup_insert_ne.
      * apply lookup_insert_eq.
  - destruct (agrees_plain _ _ Ha Hs) as (Hk & Hr).
    exists rid. split; [done|].
    apply key_of_plain; [done|]. by rewrite <- Hk.
Qed.

End StoreOnTable.

(** ** Updates on the table *)

Section UpdateFacts.
Implicit Types (self : DynamoNotes.t) (t : table) (it key old new : item).

(** The table reads the expression the store wrote as the assignments the
    store meant. *)
Lemma resolved_update env title content :
  title <> None \/ content <> None ->
  parse_set (update_expr title content)
    ≫= resolve (update_vals env title content)
  = Some (assignments env title content).
Proof.
  intros Hf. destruct title as [v1|], content as [v2|];
    try (destruct Hf; congruence); reflexivity.
Qed.

Lemma foldl_assign_other l old a :
  a ∉ l.*1 -> foldl assign old l !! a = old !! a.
Proof.
  revert old. induction l as [|[b v] l IH]; intros old Ha; [done|].
  simpl in *. apply not_elem_of_cons in Ha as [Hne Ha].
  rewrite IH by done. unfold assign. simpl. by rewrite lookup_insert_ne.
Qed.

(** What the assignments of an update leave in the item. *)
Lemma updated_lookup env title content old a :
  foldl assign old (assignments env title content) !! a
  = if decide (a = "updated_at") then Some (now_iso env)
    else if decide (a = "title") then
           match title with Some v => Some v | None => old !! a end
    else if decide (a = "content") then
           match content with Some v => Some v | None => old !! a end
    else old !! a.
Proof.
  unfold assignments.
  destruct title as [v1|], content as [v2|]; simpl; unfold assign; simpl;
    repeat case_decide; subst; simplify_map_eq; done.
Qed.

(** A successful call of the table's update: no fault was due, the key was a
    key of the table, the assignments spared the key attributes, and the
    answer is the stored item. *)
Lemma tbl_update_success key expr vals t r t' :
  tbl_update key expr vals t = (Ok r, t') ->
  exists assigns,
    is_key t key = true /\
    parse_set expr ≫= resolve vals = Some assigns /\
    touches_key t assigns = false /\
    r = Some (foldl assign (default key (lookup_item t (key_of t key)))
                assigns) /\
    hash_name t' = hash_name t /\ range_name t' = range_name t /\
    items t'
    = filter (other_key t (key_of t key)) (items t)
        ++ [foldl assign (default key (lookup_item t (key_of t key)))
              assigns].
Proof.
  unfold tbl_update, transport.
  destruct (faults t) as [|[e|] fs]; [| discriminate |];
    (destruct (is_key _ key) eqn:Hk; [|discriminate]);
    (destruct (parse_set expr ≫= resolve vals) as [assigns|] eqn:Hp;
       [|discriminate]);
    (destruct (touches_key _ assigns) eqn:Ht; [discriminate|]);
    intros [= <- <-]; exists assigns; repeat split; done.
Qed.

End UpdateFacts.

(** ** The operations on a healthy table *)

Section OperationsOnTable.
Implicit Types (self : DynamoNotes.t) (t : table) (it key : item)
  (cs : list call).

Lemma create_on_table self t cs env title content user_id item_id :
  agrees self t -> healthy t -> sort_key_supplied self user_id ->
  created_item self env title content user_id item_id
    !! DynamoNotes.key_name self <> Some "" ->
  let it := created_item self env title content user_id item_id in
  DynamoNotes.create self env title content user_id item_id (World t cs)
  = (Ok it,
     World (set_items (filter (other_key t (key_of t it)) (items t) ++ [it]) t)
           (cs ++ [PutItem it])).
Proof.
  intros Ha Hh Hu Hid it.
  destruct (created_item_key self t env title content user_id item_id Ha Hu)
    as (rid & Hrid & Hk).
  fold it in Hk. rewrite Hk.
  apply (create_ok (B := table)); [done|]. simpl.
  apply tbl_put_ok; [done..|]. apply note_key_nonempty; [|done].
  intros ->. by apply Hid.
Qed.

Lemma get_on_table self t cs item_id user_id :
  agrees self t -> healthy t ->
  item_id <> "" -> sort_key_supplied self user_id ->
  exists key,
    DynamoNotes.get self item_id user_id (World t cs)
    = (Ok (lookup_item t (note_key self item_id user_id)),
       World t (cs ++ [GetItem key])).
Proof.
  intros Ha Hh Hid Hu.
  destruct (make_key_agrees self t item_id user_id "identify the item"
              (World t cs) Ha (supplied_not_none _ _ Hu))
    as (key & Hmk & Hik & Hko).
  exists key. rewrite (get_run _ _ _ key) by done.
  unfold try_storage, remote. simpl. rewrite tbl_get_ok by auto.
  by rewrite Hko.
Qed.

Lemma delete_on_table self t cs item_id user_id :
  agrees self t -> healthy t ->
  item_id <> "" -> sort_key_supplied self user_id ->
  exists key,
    DynamoNotes.delete self item_id user_id (World t cs)
    = (Ok tt,
       World (set_items
                (filter (other_key t (note_key self item_id user_id))
                   (items t)) t)
             (cs ++ [DeleteItem key])).
Proof.
  intros Ha Hh Hid Hu.
  destruct (make_key_agrees self t item_id user_id "delete the item"
              (World t cs) Ha (supplied_not_none _ _ Hu))
    as (key & Hmk & Hik & Hko).
  exists key. rewrite (delete_run _ _ _ key) by done.
  unfold try_storage, remote. simpl. rewrite tbl_delete_ok by auto.
  by rewrite Hko.
Qed.

Lemma list_on_table self t cs user_id :
  healthy t -> one_page (items t) ->
  DynamoNotes.list self user_id (World t cs)
  = (Ok (match list_filter self user_id with
         | None => items t
         | Some (a, v) =>
             filter (fun it : item => it !! a = Some v) (items t)
         end),
     World t (cs ++ [Scan (list_filter self user_id)])).
Proof.
  intros Hh Hp.
  unfold DynamoNotes.list, list_filter, try_storage, bind, remote.
  destruct (truthy user_id && truthy (DynamoNotes.sort_key_name self));
    simpl; by rewrite tbl_scan_ok.
Qed.

Lemma created_item_fields self env title content user_id item_id :
  keys_apart self ->
  (truthy (DynamoNotes.sort_key_name self) = true ->
   DynamoNotes.sort_name self <> DynamoNotes.key_name self) ->
  let it := created_item self env title content user_id item_id in
  it !! "title" = Some title /\ it !! "content" = Some content /\
  it !! "created_at" = Some (now_iso env) /\
  it !! "updated_at" = Some (now_iso env) /\
  it !! DynamoNotes.key_name self = Some (or_str item_id (uuid4 env)).
Proof.
  intros (Hk & Hs) Hd. unfold created_item, note_fields in *.
  assert (Hk' : DynamoNotes.key_name self <> "title" /\
                DynamoNotes.key_name self <> "content" /\
                DynamoNotes.key_name self <> "created_at" /\
                DynamoNotes.key_name self <> "updated_at").
  { repeat split; intros E; apply Hk; rewrite E; set_solver. }
  destruct Hk' as (? & ? & ? & ?).
  destruct (truthy (DynamoNotes.sort_key_name self)) eqn:Hsk.
  - assert (Hs' : DynamoNotes.sort_name self <> "title" /\
                  DynamoNotes.sort_name self <> "content" /\
                  DynamoNotes.sort_name self <> "created_at" /\
                  DynamoNotes.sort_name self <> "updated_at").
    { repeat split; intros E; apply Hs; try done; rewrite E; set_solver. }
    destruct Hs' as (? & ? & ? & ?).
    specialize (Hd eq_refl).
    simpl. repeat split; by simplify_map_eq.
  - simpl. repeat split; by simplify_map_eq.
Qed.

Lemma or_str_nonempty a b : b <> "" -> or_str a b <> "".
Proof. unfold or_str. by destruct a as [[|c s]|]. Qed.

Lemma or_str_explicit id b : id <> "" -> or_str (Some id) b = id.
Proof. unfold or_str. by destruct id. Qed.

(** The id of the item [create] builds is not empty when the explicit id,
    or else the generated one, is not. *)
Lemma created_id_nonempty self t env title content user_id item_id :
  agrees self t -> keys_apart self ->
  or_str item_id (uuid4 env) <> "" ->
  created_item self env title content user_id item_id
    !! DynamoNotes.key_name self <> Some "".
Proof.
  intros Ha Hka Hid.
  destruct (created_item_fields self env title content user_id item_id Hka)
    as (_ & _ & _ & _ & Hkey).
  { intros Hs. by destruct (agrees_sorted _ _ Ha Hs) as (_ & _ & Hd). }
  rewrite Hkey. congruence.
Qed.

End OperationsOnTable.

(** ** The sample store and table *)

Lemma notes_store_agrees l : agrees notes_store (set_items l notes_table).
Proof. split; [reflexivity | split; [reflexivity | discriminate]]. Qed.

Lemma plain_store_agrees l : agrees plain_store (set_items l plain_table).
Proof. split; [reflexivity | split; [reflexivity | discriminate]]. Qed.

Lemma notes_store_keys_apart : keys_apart notes_store.
Proof.
  split; [|intros _]; apply (bool_decide_unpack _); vm_compute; exact I.
Qed.

Lemma plain_store_keys_apart : keys_apart plain_store.
Proof.
  split; [|discriminate]; apply (bool_decide_unpack _); vm_compute; exact I.
Qed.

(** ** Round trips *)

(** C5: on a healthy table the store was configured for, [create] with the
    sort-key value the table needs succeeds, and [get] with the id of the
    returned item and the same sort-key value returns an item with the title
    and the content passed to [create] and with the [created_at] and
    [updated_at] of the item [create] returned. *)
Theorem create_then_get_round_trip :
  forall (self : DynamoNotes.t) (t : table) (cs : list call) (env : readings)
         (title content : string) (user_id item_id : option string),
    agrees self t -> healthy t -> keys_apart self ->
    sort_key_supplied self user_id ->
    uuid4 env <> "" ->
    exists (it it' : item) (w1 w2 : world table),
      DynamoNotes.create self env title content user_id item_id (World t cs)
      = (Ok it, w1) /\
      DynamoNotes.get self (returned_id self it) user_id w1
      = (Ok (Some it'), w2) /\
      it' !! "title" = Some title /\
      it' !! "content" = Some content /\
      it' !! "created_at" = it !! "created_at" /\
      it' !! "updated_at" = it !! "updated_at".
Proof.
  intros self t cs env title content user_id item_id Ha Hh Hka Hu Huuid.
  set (it := created_item self env title content user_id item_id).
  destruct (created_item_key self t env title content user_id item_id Ha Hu)
    as (rid & Hrid & Hk). fold it in Hrid, Hk.
  set (t1 := set_items (filter (other_key t (key_of t it)) (items t) ++ [it]) t).
  assert (Hid : it !! DynamoNotes.key_name self <> Some "").
  { apply (created_id_nonempty self t); [done..|]. by apply or_str_nonempty. }
  assert (Hrne : rid <> "") by (intros ->; by apply Hid).
  destruct (get_on_table self t1 (cs ++ [PutItem it]) rid user_id)
    as (key & Hget); [done..|].
  exists it, it, (World t1 (cs ++ [PutItem it])),
    (World t1 ((cs ++ [PutItem it]) ++ [GetItem key])).
  split; [by apply create_on_table|].
  split.
  - unfold returned_id. rewrite Hrid. simpl. rewrite Hget.
    rewrite <- Hk. unfold t1. by rewrite lookup_after_put.
  - destruct (created_item_fields self env title content user_id item_id Hka)
      as (Ht & Hc & _).
    + intros Hs. by destruct (agrees_sorted _ _ Ha Hs) as (_ & _ & Hd).
    + by repeat split.
Qed.

Lemma create_then_get_round_trip_witness :
  exists (it it' : item) (w1 w2 : world table),
    DynamoNotes.create notes_store noon "Groceries" "Milk, eggs"
      (Some "ana") None (World notes_table [])
    = (Ok it, w1) /\
    DynamoNotes.get notes_store (returned_id notes_store it) (Some "ana") w1
    = (Ok (Some it'), w2) /\
    it' !! "title" = Some "Groceries" /\
    it' !! "content" = Some "Milk, eggs" /\
    it' !! "created_at" = it !! "created_at" /\
    it' !! "updated_at" = it !! "updated_at".
Proof.
  apply (create_then_get_round_trip notes_store notes_table [] noon
           "Groceries" "Milk, eggs" (Some "ana") None).
  - apply (notes_store_agrees []).
  - reflexivity.
  - apply notes_store_keys_apart.
  - intros _. reflexivity.
  - discriminate.
Defined.

Lemma filter_swap {A} (P Q : A -> Prop) `{!forall x, Decision (P x)}
    `{!forall x, Decision (Q x)} (l : list A) :
  filter P (filter Q l) = filter Q (filter P l).
Proof.
  induction l as [|x l IH]; [done|].
  rewrite (filter_cons Q), (filter_cons P).
  destruct (decide (Q x)), (decide (P x));
    rewrite ?filter_cons; repeat case_decide; try done; by rewrite IH.
Qed.

Lemma created_item_sort self env title content user_id item_id :
  truthy (DynamoNotes.sort_key_name self) = true ->
  created_item self env title content user_id item_id
    !! DynamoNotes.sort_name self = Some (default "" user_id).
Proof. intros Hs. unfold created_item. rewrite Hs. apply lookup_insert_eq. Qed.

(** The item [create] builds for an explicit, non-empty id bears the full
    key of that id. *)
Lemma created_item_explicit_key self t env title content user_id id :
  agrees self t -> keys_apart self -> sort_key_supplied self user_id ->
  id <> "" ->
  key_of t (created_item self env title content user_id (Some id))
  = note_key self id user_id.
Proof.
  intros Ha Hka Hu Hid.
  destruct (created_item_key self t env title content user_id (Some id) Ha Hu)
    as (rid & Hrid & Hk).
  destruct (created_item_fields self env title content user_id (Some id) Hka)
    as (_ & _ & _ & _ & Hkey).
  { intros Hs. by destruct (agrees_sorted _ _ Ha Hs) as (_ & _ & Hd). }
  rewrite Hkey in Hrid. injection Hrid as <-. rewrite Hk.
  destruct id; [done|reflexivity].
Qed.

(** An empty id counts as no id: [create] generates one. *)
Lemma empty_id_is_generated self env title content user_id :
  created_item self env title content user_id (Some "")
  = created_item self env title content user_id None.
Proof. reflexivity. Qed.

(** C6: on a healthy table the store was configured for, two calls of
    [create] with the same explicit, non-empty id (and the same sort-key
    value) leave one item under that key: where the table with the second
    note fits in one page of a scan, among the items a following [list]
    returns exactly one bears the key, and it is the item of the second call,
    with the second title and content. *)
Theorem create_twice_overwrites :
  forall (self : DynamoNotes.t) (t : table) (cs : list call)
         (env1 env2 : readings) (title1 content1 title2 content2 id : string)
         (user_id : option string),
    agrees self t -> healthy t -> keys_apart self ->
    sort_key_supplied self user_id -> id <> "" ->
    (total_size (items t)
     + item_size (created_item self env2 title2 content2 user_id (Some id))
     <= page_bytes)%N ->
    exists (it1 it2 : item) (l : list item) (w1 w2 w3 : world table),
      DynamoNotes.create self env1 title1 content1 user_id (Some id)
        (World t cs) = (Ok it1, w1) /\
      DynamoNotes.create self env2 title2 content2 user_id (Some id) w1
      = (Ok it2, w2) /\
      DynamoNotes.list self user_id w2 = (Ok l, w3) /\
      filter (bears_key t (note_key self id user_id)) l = [it2] /\
      it2 !! "title" = Some title2 /\
      it2 !! "content" = Some content2.
Proof.
  intros self t cs env1 env2 title1 content1 title2 content2 id user_id
    Ha Hh Hka Hu Hid Hfit.
  set (it1 := created_item self env1 title1 content1 user_id (Some id)).
  set (it2 := created_item self env2 title2 content2 user_id (Some id)) in *.
  set (t1 := set_items (filter (other_key t (key_of t it1)) (items t) ++ [it1]) t).
  set (t2 := set_items
               (filter (other_key t1 (key_of t1 it2)) (items t1) ++ [it2]) t1).
  assert (Hk1 : key_of t it1 = note_key self id user_id)
    by (by apply created_item_explicit_key).
  assert (Hk2 : key_of t it2 = note_key self id user_id)
    by (by apply created_item_explicit_key).
  assert (Hid1 : it1 !! DynamoNotes.key_name self <> Some "").
  { apply (created_id_nonempty self t); [done..|]. by rewrite or_str_explicit. }
  assert (Hid2 : it2 !! DynamoNotes.key_name self <> Some "").
  { apply (created_id_nonempty self t); [done..|]. by rewrite or_str_explicit. }
  assert (Hp : one_page (items t2)).
  { change (items t2)
      with (filter (other_key t (key_of t it2))
              (filter (other_key t (key_of t it1)) (items t) ++ [it1])
            ++ [it2]).
    rewrite filter_app, (filter_cons _ it1), decide_False, filter_nil,
      app_nil_r.
    - unfold one_page. rewrite total_size_app. simpl.
      pose proof (total_size_filter (other_key t (key_of t it2))
                    (filter (other_key t (key_of t it1)) (items t))).
      pose proof (total_size_filter (other_key t (key_of t it1)) (items t)).
      lia.
    - unfold other_key. rewrite Hk1, Hk2. intros Hne. by apply Hne. }
  exists it1, it2; eexists; exists (World t1 (cs ++ [PutItem it1])),
    (World t2 ((cs ++ [PutItem it1]) ++ [PutItem it2])); eexists.
  split; [by apply create_on_table|].
  split; [by apply (create_on_table self t1)|].
  split; [by apply (list_on_table self t2)|].
  assert (Hb : filter (bears_key t (note_key self id user_id)) (items t2)
               = [it2]).
  { rewrite <- Hk2.
    exact (bearers_after_put t1 (key_of t1 it2) it2 (items t1) eq_refl). }
  split.
  - unfold list_filter.
    destruct (truthy user_id && truthy (DynamoNotes.sort_key_name self))
      eqn:Hf; [|exact Hb].
    apply andb_true_iff in Hf as [_ Hs].
    rewrite filter_swap, Hb, filter_cons.
    rewrite decide_True; [done|]. by apply created_item_sort.
  - destruct (created_item_fields self env2 title2 content2 user_id (Some id)
                Hka) as (Ht & Hc & _); [|done].
    intros Hs. by destruct (agrees_sorted _ _ Ha Hs) as (_ & _ & Hd).
Qed.

Lemma create_twice_overwrites_witness :
  exists (it1 it2 : item) (l : list item) (w1 w2 w3 : world table),
    DynamoNotes.create notes_store noon "Groceries" "Milk" (Some "ana")
      (Some "n1") (World notes_table []) = (Ok it1, w1) /\
    DynamoNotes.create notes_store later "Groceries v2" "Milk, eggs"
      (Some "ana") (Some "n1") w1 = (Ok it2, w2) /\
    DynamoNotes.list notes_store (Some "ana") w2 = (Ok l, w3) /\
    filter (bears_key notes_table (note_key notes_store "n1" (Some "ana"))) l
    = [it2] /\
    it2 !! "title" = Some "Groceries v2" /\
    it2 !! "content" = Some "Milk, eggs".
Proof.
  apply (create_twice_overwrites notes_store notes_table [] noon later
           "Groceries" "Milk" "Groceries v2" "Milk, eggs" "n1" (Some "ana")).
  - apply (notes_store_agrees []).
  - reflexivity.
  - apply notes_store_keys_apart.
  - intros _. reflexivity.
  - discriminate.
  - apply N.leb_le. vm_compute. reflexivity.
Defined.

Lemma lookup_item_None t k :
  lookup_item t k = None -> filter (other_key t k) (items t) = items t.
Proof.
  unfold lookup_item. intros Hh. apply filter_other_absent.
  by destruct (filter (bears_key t k) (items t)).
Qed.

Lemma set_items_same t : set_items (items t) t = t.
Proof. by destruct t. Qed.

(** C8: on a healthy table the store was configured for, [delete] of a key
    that no item bears, with an id and a sort-key value that are not empty,
    succeeds, leaves the table as it was, and a following [get] of the same
    key returns the absent result. *)
Theorem delete_absent_is_idempotent :
  forall (self : DynamoNotes.t) (t : table) (cs : list call)
         (item_id : string) (user_id : option string),
    agrees self t -> healthy t ->
    item_id <> "" -> sort_key_supplied self user_id ->
    lookup_item t (note_key self item_id user_id) = None ->
    exists (w1 w2 : world table),
      DynamoNotes.delete self item_id user_id (World t cs) = (Ok tt, w1) /\
      backend w1 = t /\
      DynamoNotes.get self item_id user_id w1 = (Ok None, w2) /\
      backend w2 = t.
Proof.
  intros self t cs item_id user_id Ha Hh Hid Hu Habs.
  destruct (delete_on_table self t cs item_id user_id Ha Hh Hid Hu)
    as (k1 & Hdel).
  rewrite lookup_item_None, set_items_same in Hdel by done.
  destruct (get_on_table self t (cs ++ [DeleteItem k1]) item_id user_id
              Ha Hh Hid Hu) as (k2 & Hget).
  rewrite Habs in Hget.
  by exists (World t (cs ++ [DeleteItem k1])),
    (World t ((cs ++ [DeleteItem k1]) ++ [GetItem k2])).
Qed.

Lemma delete_absent_is_idempotent_witness :
  exists (w1 w2 : world table),
    DynamoNotes.delete notes_store "n1" (Some "ana") (World notes_table [])
    = (Ok tt, w1) /\
    backend w1 = notes_table /\
    DynamoNotes.get notes_store "n1" (Some "ana") w1 = (Ok None, w2) /\
    backend w2 = notes_table.
Proof.
  apply (delete_absent_is_idempotent notes_store notes_table [] "n1"
           (Some "ana")).
  - apply (notes_store_agrees []).
  - reflexivity.
  - discriminate.
  - intros _. reflexivity.
  - reflexivity.
Defined.

(** ** Updates of an existing note *)

(** A successful [update] on the table: a field was supplied, the key was
    built, the assignments spared the key attributes, and the item the store
    returns is the stored one: the item found under the key (or the key
    itself, where none was found) with the assignments applied. *)
Lemma update_success self t cs env item_id title content user_id new w' :
  agrees self t ->
  DynamoNotes.update self env item_id title content user_id (World t cs)
  = (Ok new, w') ->
  exists key,
    (title <> None \/ content <> None) /\
    touches_key t (assignments env title content) = false /\
    new = foldl assign
            (default key (lookup_item t (note_key self item_id user_id)))
            (assignments env title content) /\
    hash_name (backend w') = hash_name t /\
    range_name (backend w') = range_name t /\
    items (backend w')
    = filter (other_key t (note_key self item_id user_id)) (items t) ++ [new].
Proof.
  intros Ha Hrun.
  assert (Hf : title <> None \/ content <> None).
  { destruct title, content; try (left; congruence); try (right; congruence).
    discriminate Hrun. }
  assert (Hu : truthy (DynamoNotes.sort_key_name self) = true ->
               user_id <> None).
  { intros Hs ->. destruct (update_without_sort_key (B := table) self env
      item_id title content (World t cs) Hs Hf) as (m & Hm). congruence. }
  destruct (make_key_agrees self t item_id user_id "update the item"
              (World t cs) Ha Hu) as (key & Hmk & Hik & Hko).
  exists key. split; [done|].
  rewrite (update_run _ _ _ _ _ _ key) in Hrun by done.
  unfold try_storage, bind, remote, ret in Hrun. simpl in Hrun.
  destruct (tbl_update key _ _ t) as [[r|e] t'] eqn:Hupd;
    [|by destruct (is_boto_error e)].
  injection Hrun as <- <-. simpl.
  apply tbl_update_success in Hupd
    as (assigns & _ & Hp & Htk & -> & Hh & Hr & Hi).
  rewrite resolved_update in Hp by done. injection Hp as <-.
  rewrite Hko in *. by repeat split.
Qed.

Lemma lookup_item_bears t k old :
  lookup_item t k = Some old -> key_of t old = k.
Proof.
  unfold lookup_item. intros Hh.
  assert (Hin : old ∈ filter (bears_key t k) (items t)).
  { destruct (filter (bears_key t k) (items t)) as [|x l]; [done|].
    injection Hh as ->. apply list_elem_of_here. }
  by apply list_elem_of_filter in Hin as [Hb _].
Qed.

Lemma touches_key_spares t l a :
  touches_key t l = false -> a ∈ key_attrs t -> a ∉ l.*1.
Proof.
  unfold touches_key. induction l as [|[b v] l IH]; simpl.
  - intros _ _. apply not_elem_of_nil.
  - intros Ht Ha. apply orb_false_iff in Ht as [Hb Hl].
    apply bool_decide_eq_false in Hb. apply not_elem_of_cons. split.
    + intros ->. by apply Hb.
    + by apply IH.
Qed.

Lemma key_of_same t it it' :
  (forall a, a ∈ key_attrs t -> it' !! a = it !! a) ->
  key_of t it' = key_of t it.
Proof.
  intros Hsame. unfold key_of, key_attrs in *.
  destruct (range_name t) as [r|].
  - rewrite !Hsame by set_solver. done.
  - rewrite !Hsame by set_solver. done.
Qed.

Lemma hash_name_is_key t : hash_name t ∈ key_attrs t.
Proof. unfold key_attrs. destruct (range_name t); set_solver. Qed.

Lemma range_name_is_key t r : range_name t = Some r -> r ∈ key_attrs t.
Proof. unfold key_attrs. intros ->. set_solver. Qed.

Lemma lookup_item_schema t t' k :
  hash_name t' = hash_name t -> range_name t' = range_name t ->
  items t' = items t ->
  lookup_item t' k = lookup_item t k.
Proof.
  destruct t as [h r l f], t' as [h' r' l' f']. simpl.
  by intros -> -> ->.
Qed.

(** C7: a successful [update] of an existing item sets [updated_at] and the
    supplied ones of [title] and [content]; every other attribute of the item
    (the id, the sort-key value, [created_at], an omitted title or content
    among them) keeps the value it had; the item returned is the item now
    stored under the key, and the notes under other keys are untouched. *)
Theorem update_changes_only_supplied_fields :
  forall (self : DynamoNotes.t) (t : table) (cs : list call) (env : readings)
         (item_id : string) (title content user_id : option string)
         (old new : item) (w' : world table),
    agrees self t ->
    lookup_item t (note_key self item_id user_id) = Some old ->
    DynamoNotes.update self env item_id title content user_id (World t cs)
    = (Ok new, w') ->
    new !! "updated_at" = Some (now_iso env) /\
    (forall v, title = Some v -> new !! "title" = Some v) /\
    (forall v, content = Some v -> new !! "content" = Some v) /\
    (title = None -> new !! "title" = old !! "title") /\
    (content = None -> new !! "content" = old !! "content") /\
    (forall a, a <> "updated_at" -> a <> "title" -> a <> "content" ->
               new !! a = old !! a) /\
    new !! DynamoNotes.key_name self = old !! DynamoNotes.key_name self /\
    (truthy (DynamoNotes.sort_key_name self) = true ->
     new !! DynamoNotes.sort_name self = old !! DynamoNotes.sort_name self) /\
    new !! "created_at" = old !! "created_at" /\
    lookup_item (backend w') (note_key self item_id user_id) = Some new /\
    (forall k, k <> note_key self item_id user_id ->
               lookup_item (backend w') k = lookup_item t k).
Proof.
  intros self t cs env item_id title content user_id old new w' Ha Hold Hrun.
  destruct (update_success _ _ _ _ _ _ _ _ _ _ Ha Hrun)
    as (key & Hf & Htk & Hnew & Hh & Hr & Hi).
  rewrite Hold in Hnew. change (default key (Some old)) with old in Hnew.
  assert (Hkeys : forall a, a ∈ key_attrs t -> new !! a = old !! a).
  { intros a Hin. rewrite Hnew. apply foldl_assign_other.
    by apply (touches_key_spares t). }
  assert (Hkn : key_of t new = note_key self item_id user_id).
  { rewrite (key_of_same t old new Hkeys). by apply lookup_item_bears. }
  pose proof (updated_lookup env title content old) as Hl.
  rewrite <- Hnew in Hl.
  repeat split.
  - by rewrite Hl.
  - intros v ->. by rewrite Hl.
  - intros v ->. by rewrite Hl.
  - intros ->. by rewrite Hl.
  - intros ->. by rewrite Hl.
  - intros a H1 H2 H3. rewrite Hl. by repeat case_decide.
  - apply Hkeys. destruct Ha as (-> & _). apply hash_name_is_key.
  - intros Hs. apply Hkeys. apply range_name_is_key.
    by destruct (agrees_sorted _ _ Ha Hs) as (_ & ? & _).
  - by rewrite Hl.
  - rewrite (lookup_item_schema
      (set_items (filter (other_key t (note_key self item_id user_id))
                    (items t) ++ [new]) t) (backend w')) by done.
    by apply lookup_after_put.
  - intros k Hk.
    rewrite (lookup_item_schema
      (set_items (filter (other_key t (note_key self item_id user_id))
                    (items t) ++ [new]) t) (backend w')) by done.
    unfold lookup_item. simpl.
    change (head (filter (bears_key t k)
              (filter (other_key t (note_key self item_id user_id)) (items t)
                 ++ [new]))
            = head (filter (bears_key t k) (items t))).
    rewrite filter_app, filter_bears_other_ne by done.
    rewrite (filter_cons _ new), decide_False, filter_nil, app_nil_r; [done|].
    unfold bears_key. congruence.
Qed.

Lemma update_changes_only_supplied_fields_witness :
  exists (new : item) (w' : world table),
    DynamoNotes.update notes_store later "n1" (Some "Groceries v2") None
      (Some "ana") (World stocked_table []) = (Ok new, w') /\
    new !! "updated_at" = Some (now_iso later) /\
    new !! "title" = Some "Groceries v2" /\
    new !! "content" = groceries !! "content" /\
    new !! "id" = groceries !! "id" /\
    new !! "user_id" = groceries !! "user_id" /\
    new !! "created_at" = groceries !! "created_at" /\
    lookup_item (backend w') (note_key notes_store "n1" (Some "ana"))
    = Some new.
Proof.
  assert (Hok : is_ok (DynamoNotes.update notes_store later "n1"
                         (Some "Groceries v2") None (Some "ana")
                         (World stocked_table [])).1 = true)
    by (vm_compute; reflexivity).
  destruct (DynamoNotes.update notes_store later "n1" (Some "Groceries v2")
              None (Some "ana") (World stocked_table []))
    as [[new|e] w'] eqn:Hrun; [|discriminate Hok].
  exists new, w'.
  assert (Hold : lookup_item stocked_table
                   (note_key notes_store "n1" (Some "ana")) = Some groceries)
    by (vm_compute; reflexivity).
  destruct (update_changes_only_supplied_fields notes_store stocked_table []
              later "n1" (Some "Groceries v2") None (Some "ana") groceries
              new w' (notes_store_agrees [groceries]) Hold Hrun)
    as (Hu & Ht & _ & _ & Hc & _ & Hid & Hsk & Hca & Hst & _).
  split; [reflexivity|]. split; [exact Hu|]. split; [exact (Ht _ eq_refl)|].
  split; [exact (Hc eq_refl)|]. split; [exact Hid|].
  split; [exact (Hsk eq_refl)|]. split; [exact Hca|exact Hst].
Defined.

(** ** The empty string as a sort-key value *)

(** C10: on a store with a sort key, [get], [update] and [delete] take the
    empty string as a sort-key value: they make their remote call with a key
    whose sort attribute is the empty string; [create] rejects the empty
    string as a missing sort key, before any remote call; [list] scans
    without a filter and returns what that scan answers.  This holds for
    every backend. *)
Theorem empty_sort_key_value_is_handled_unevenly :
  forall (B : Type) (HB : Backend B) (self : DynamoNotes.t) (env : readings)
         (item_id title content : string) (cid t c : option string)
         (w : world B),
    truthy (DynamoNotes.sort_key_name self) = true ->
    t <> None \/ c <> None ->
    DynamoNotes.get self item_id (Some "") w
    = try_storage (remote (GetItem (full_key self item_id ""))
                     (get_item (full_key self item_id ""))) w /\
    DynamoNotes.update self env item_id t c (Some "") w
    = try_storage (
        resp <- remote
          (UpdateItem (full_key self item_id "") (update_expr t c)
             (update_vals env t c))
          (update_item (full_key self item_id "") (update_expr t c)
             (update_vals env t c));;
        ret (default (∅ : item) resp)) w /\
    DynamoNotes.delete self item_id (Some "") w
    = try_storage (remote (DeleteItem (full_key self item_id ""))
                     (delete_item (full_key self item_id ""))) w /\
    DynamoNotes.create self env title content (Some "") cid w
    = (Raise (StorageError ("Table requires sort key '" +:+
         DynamoNotes.sort_name self +:+ "'; provide user_id")), w) /\
    DynamoNotes.list self (Some "") w
    = try_storage (resp <- remote (Scan None) (scan None);;
                   ret (default [] resp)) w.
Proof.
  intros B HB self env item_id title content cid t c w Hs Hf.
  repeat split.
  - apply get_run. by apply make_key_some.
  - apply update_run; [done|]. by apply make_key_some.
  - apply delete_run. by apply make_key_some.
  - by apply create_without_sort_key.
Qed.

Lemma empty_sort_key_value_is_handled_unevenly_witness :
  (DynamoNotes.get notes_store "n1" (Some "") (World notes_table [])).2
  = World notes_table [GetItem (full_key notes_store "n1" "")] /\
  DynamoNotes.create notes_store noon "Groceries" "Milk" (Some "") None
    (World notes_table [])
  = (Raise (StorageError "Table requires sort key 'user_id'; provide user_id"),
     World notes_table []) /\
  (DynamoNotes.list notes_store (Some "") (World stocked_table [])).1
  = Ok [groceries].
Proof.
  destruct (empty_sort_key_value_is_handled_unevenly table _ notes_store noon
              "n1" "Groceries" "Milk" None (Some "Groceries v2") None
              (World notes_table []) eq_refl (or_introl (Some_ne_None _)))
    as (Hget & _ & _ & Hcreate & _).
  destruct (empty_sort_key_value_is_handled_unevenly table _ notes_store noon
              "n1" "Groceries" "Milk" None (Some "Groceries v2") None
              (World stocked_table []) eq_refl (or_introl (Some_ne_None _)))
    as (_ & _ & _ & _ & Hlist).
  split; [rewrite Hget; vm_compute; reflexivity|].
  split; [exact Hcreate|rewrite Hlist; vm_compute; reflexivity].
Defined.

Lemma nonempty_string a s : String a s <> "".
Proof. discriminate. Qed.

Lemma missing_sort_key_raises_storage_error_witness :
  (exists m,
     DynamoNotes.get notes_store "n1" None (World stocked_table [])
     = (Raise (StorageError m), World stocked_table [])) /\
  DynamoNotes.get notes_store "n1" (Some "ana") (World stocked_table [])
  = (Ok (Some groceries),
     World stocked_table [GetItem (full_key notes_store "n1" "ana")]).
Proof.
  destruct (missing_sort_key_raises_storage_error table _ notes_store noon
              "Groceries" "Milk" "n1" "ana" None (Some "Groceries v2") None
              (World stocked_table []) eq_refl (or_introl (Some_ne_None _))
              (nonempty_string _ _))
    as ((_ & Hnone & _) & _ & Hsome & _).
  split; [exact Hnone|].
  apply (Hsome (Some groceries) stocked_table). vm_compute. reflexivity.
Defined.

(** ** Title and content *)

(** C3, as stated, fails: [create] with an empty title and an empty content
    does not fail. *)
Lemma create_accepts_empty_title_and_content :
  ~ (exists e,
       (DynamoNotes.create plain_store noon "" "" None None
          (World plain_table [])).1 = Raise e).
Proof.
  intros (e & He).
  assert (Hok : is_ok (DynamoNotes.create plain_store noon "" "" None None
                         (World plain_table [])).1 = true)
    by (vm_compute; reflexivity).
  rewrite He in Hok. discriminate Hok.
Qed.

(** C3, amended: [create] does not look at the title or the content: once the
    sort-key value the table needs is there, it writes the item with the
    title and the content as given, the empty string included, and succeeds
    when the write does.  That both be non-empty is the check of the web
    handler [add]: whatever the store and the backend, it answers 400 and
    makes no call when the title or the content is missing or empty. *)
Theorem create_does_not_check_title_or_content :
  forall (B : Type) (HB : Backend B) (self : DynamoNotes.t) (env : readings)
         (title content : string) (user_id item_id default_user_id :
         option string) (form : item) (w : world B) (b' : B),
    (sort_key_supplied self user_id ->
     put_item (created_item self env title content user_id item_id)
       (backend w) = (Ok tt, b') ->
     DynamoNotes.create self env title content user_id item_id w
     = (Ok (created_item self env title content user_id item_id),
        World b' (calls w ++
          [PutItem (created_item self env title content user_id item_id)]))) /\
    (truthy (form !! "title") = false \/ truthy (form !! "content") = false ->
     add self default_user_id env form w
     = (Ok (Response "title and content required" 400), w)).
Proof.
  intros B HB self env title content user_id item_id duid form w b'.
  split; [intros Hu Hput; by apply create_ok|].
  intros Hform. unfold add.
  destruct Hform as [-> | ->]; simpl; [done|].
  by rewrite orb_true_r.
Qed.

Lemma create_does_not_check_title_or_content_witness :
  DynamoNotes.create plain_store noon "" "" None None (World plain_table [])
  = (Ok (created_item plain_store noon "" "" None None),
     World (set_items [created_item plain_store noon "" "" None None]
              plain_table)
       [PutItem (created_item plain_store noon "" "" None None)]) /\
  add plain_store None noon {[ "title" := ""; "content" := "" ]}
    (World plain_table [])
  = (Ok (Response "title and content required" 400), World plain_table []).
Proof.
  destruct (create_does_not_check_title_or_content table _ plain_store noon
              "" "" None None None {[ "title" := ""; "content" := "" ]}
              (World plain_table [])
              (set_items [created_item plain_store noon "" "" None None]
                 plain_table))
    as (Hc & Ha).
  split.
  - apply Hc; [discriminate|]. vm_compute. reflexivity.
  - apply Ha. left. vm_compute. reflexivity.
Defined.

(** ** The constructor *)

Section Constructor.
Import DynamoNotes.

(** An explicit sort key name survives the loop over the schema entries,
    whatever they are. *)
Lemma for_entries_keeps_sort ks (s : attrs) :
  py_truthy (self_sort_key_name s) = true ->
  self_sort_key_name (for_entries ks s).2 = self_sort_key_name s.
Proof.
  revert s. induction ks as [|entry ks IH]; intros s Hs; [done|].
  simpl. unfold bind, lift, gets, modify, ret.
  destruct entry as [| | | |d]; try done. simpl.
  destruct (py_eq_str (default PNone (assoc "KeyType" d)) "HASH"); simpl.
  - by rewrite IH.
  - rewrite Hs, andb_false_r. by rewrite IH.
Qed.

Lemma discover_keeps_sort tbl name (s : attrs) :
  py_truthy (self_sort_key_name s) = true ->
  self_sort_key_name (discover tbl name s).2 = self_sort_key_name s.
Proof.
  intros Hs. unfold discover, bind, lift, ret.
  destruct (getattr_key_schema tbl) as [ks|e]; [|done].
  destruct (negb (py_truthy ks)) eqn:Hks.
  - destruct (describe_table tbl name) as [desc|e]; [|done].
    destruct (py_get desc "Table" (PDict [])) as [tb|e]; [|done].
    destruct (py_get tb "KeySchema" PNone) as [ks'|e]; [|done].
    destruct (py_truthy ks'); [|done].
    destruct (py_iter ks') as [entries|e]; [|done].
    by apply for_entries_keeps_sort.
  - apply negb_false_iff in Hks. rewrite Hks.
    destruct (py_iter ks) as [entries|e]; [|done].
    by apply for_entries_keeps_sort.
Qed.

(** The [try] of the constructor lets no exception of discovery through,
    and a supplied sort key name stays: once boto3 is there and hands out a
    table resource, the constructor returns a store, whatever reading the
    key schema does. *)
Lemma init_swallows_discovery b tbl name key_name sort_key_name :
  resource_Table b name = Ok tbl ->
  exists a, init (Some b) name key_name sort_key_name = Ok a /\
            (truthy sort_key_name = true ->
             self_sort_key_name a = py_of_opt sort_key_name).
Proof.
  intros Hr. unfold init. rewrite Hr. unfold try_pass.
  pose proof (discover_keeps_sort tbl name
    (Attrs (PStr (or_str key_name "id")) (py_of_opt sort_key_name))) as Hk.
  destruct (discover tbl name _) as [[[]|e] a] eqn:Hd; simpl in *;
    (exists a; split; [done|]); intros Hs; apply Hk;
    by destruct sort_key_name as [[|]|].
Qed.

(** When reading the key schema fails before any entry is seen, the names
    are the supplied ones, or the default. *)
Lemma init_falls_back_without_schema b tbl name key_name sort_key_name e :
  resource_Table b name = Ok tbl ->
  getattr_key_schema tbl = Raise e ->
  init (Some b) name key_name sort_key_name
  = Ok (Attrs (PStr (or_str key_name "id")) (py_of_opt sort_key_name)).
Proof.
  intros Hr He. unfold init. rewrite Hr.
  unfold try_pass, discover, bind, lift. by rewrite He.
Qed.

(** On a table that shows its key schema, the partition key name is the
table's whatever name was supplied, and the sort key name is the supplied
one if there is one, else the table's. *)
Lemma init_on_table (t : table) name key_name sort_key_name :
  init (Some (Boto3 (fun _ => Ok (resource_of t)))) name key_name sort_key_name
  = Ok (Attrs (PStr (hash_name t))
          (if truthy sort_key_name then py_of_opt sort_key_name
           else match range_name t with
                | Some r => PStr r
                | None => py_of_opt sort_key_name
                end)).
Proof.
  destruct t as [h [r|] l f], sort_key_name as [[|a s]|]; reflexivity.
Qed.

(** Without explicit names, the store the constructor builds is configured
for the table. *)
Lemma discovered_store_agrees (t : table) name :
  range_name t <> Some "" -> range_name t <> Some (hash_name t) ->
  exists a self,
    init (Some (Boto3 (fun _ => Ok (resource_of t)))) name None None = Ok a /\
    of_attrs a = Some self /\
    agrees self t.
Proof.
  intros Hne Hd. rewrite init_on_table. simpl.
  destruct (range_name t) as [r|] eqn:Hr.
  - exists (Attrs (PStr (hash_name t)) (PStr r)),
      (Store (hash_name t) (Some r)).
    repeat split; simpl; [|by rewrite Hr].
    rewrite Hr. destruct r; [by destruct Hne|done].
  - exists (Attrs (PStr (hash_name t)) PNone), (Store (hash_name t) None).
    repeat split; simpl; by rewrite Hr.
Qed.

End Constructor.

(** C4: with the explicit names [note_id] and [owner], on a table whose key
    schema names [id] and [user_id], the constructor keeps the explicit sort
    key name but replaces the explicit partition key name by the discovered
    one; and so it does on every table that shows its key schema: the
    partition key name of the store is the table's, whatever name was
    supplied. *)
Theorem explicit_partition_key_name_is_overridden :
  DynamoNotes.init (Some (Boto3 (fun _ => Ok (resource_of notes_table))))
    "Notes_Table" (Some "note_id") (Some "owner")
  = Ok (DynamoNotes.Attrs (PStr "id") (PStr "owner")) /\
  (forall (t : table) (name : string) (key_name sort_key_name : option string),
     exists a,
       DynamoNotes.init (Some (Boto3 (fun _ => Ok (resource_of t)))) name
         key_name sort_key_name = Ok a /\
       DynamoNotes.self_key_name a = PStr (hash_name t)).
Proof.
  split; [reflexivity|].
  intros t name key_name sort_key_name. rewrite init_on_table.
  by eexists.
Qed.

(** C9: no exception of discovery leaves the constructor, but the names do
    not always fall back: with no explicit names, on a key schema whose
    second entry is malformed, discovery raises, the constructor returns, and
    the store has the partition key name of the first entry, not the default
    [id]. *)
Theorem failed_discovery_keeps_partial_names :
  (forall (tbl : table_resource) (name : string)
          (key_name sort_key_name : option string),
     exists a,
       DynamoNotes.init (Some (Boto3 (fun _ => Ok tbl))) name key_name
         sort_key_name = Ok a) /\
  (DynamoNotes.discover broken_resource "Notes_Table"
     (DynamoNotes.Attrs (PStr "id") PNone)).1
  = Raise (AttributeError "object has no attribute 'get'") /\
  DynamoNotes.init (Some (Boto3 (fun _ => Ok broken_resource)))
    "Notes_Table" None None
  = Ok (DynamoNotes.Attrs (PStr "pk") PNone).
Proof.
  split; [|split; reflexivity].
  intros tbl name key_name sort_key_name.
  destruct (init_swallows_discovery (Boto3 (fun _ => Ok tbl)) tbl name
              key_name sort_key_name eq_refl) as (a & Ha & _).
  by exists a.
Qed.

(** * Further properties of the store *)

(** ** Failures of the table *)

Section RemoteFailures.
Context {B : Type} `{Backend B}.
Implicit Types (self : DynamoNotes.t) (w : world B) (env : readings).

Lemma make_key_the_key self item_id user_id hint w :
  (truthy (DynamoNotes.sort_key_name self) = true -> user_id <> None) ->
  DynamoNotes.make_key self item_id user_id hint w
  = (Ok (the_key self item_id user_id), w).
Proof.
  intros Hu. unfold DynamoNotes.make_key, the_key.
  destruct (truthy (DynamoNotes.sort_key_name self)); [|done].
  destruct user_id; [done|]. by destruct Hu.
Qed.

Lemma list_run self user_id w :
  DynamoNotes.list self user_id w
  = try_storage (
      resp <- remote (Scan (list_filter self user_id))
                (scan (list_filter self user_id));;
      ret (default [] resp)) w.
Proof.
  unfold DynamoNotes.list, list_filter.
  by destruct (truthy user_id && truthy (DynamoNotes.sort_key_name self)).
Qed.

Lemma remote_raises {A C} (c : call) (op : M B A) (k : A -> M (world B) C)
    w e b' :
  op (backend w) = (Raise e, b') ->
  try_storage (x <- remote c op;; k x) w
  = (Raise (surfaced e), World b' (calls w ++ [c])).
Proof.
  intros Hop. unfold try_storage, bind, remote, surfaced. rewrite Hop.
  by destruct (is_boto_error e).
Qed.

Lemma remote_raises_last {A} (c : call) (op : M B A) w e b' :
  op (backend w) = (Raise e, b') ->
  try_storage (remote c op) w
  = (Raise (surfaced e), World b' (calls w ++ [c])).
Proof.
  intros Hop. unfold try_storage, remote, surfaced. rewrite Hop.
  by destruct (is_boto_error e).
Qed.

(** Whatever the table raises, each operation has made its one call, and
    raises what [surfaced] says. *)
Lemma operations_surface_failures self env title content item_id cid t c
    user_id e b' w :
  sort_key_supplied self user_id ->
  t <> None \/ c <> None ->
  (put_item (created_item self env title content user_id cid) (backend w)
   = (Raise e, b') ->
   DynamoNotes.create self env title content user_id cid w
   = (Raise (surfaced e),
      World b' (calls w ++
        [PutItem (created_item self env title content user_id cid)]))) /\
  (get_item (the_key self item_id user_id) (backend w) = (Raise e, b') ->
   DynamoNotes.get self item_id user_id w
   = (Raise (surfaced e),
      World b' (calls w ++ [GetItem (the_key self item_id user_id)]))) /\
  (scan (list_filter self user_id) (backend w) = (Raise e, b') ->
   DynamoNotes.list self user_id w
   = (Raise (surfaced e),
      World b' (calls w ++ [Scan (list_filter self user_id)]))) /\
  (update_item (the_key self item_id user_id) (update_expr t c)
     (update_vals env t c) (backend w) = (Raise e, b') ->
   DynamoNotes.update self env item_id t c user_id w
   = (Raise (surfaced e),
      World b' (calls w ++
        [UpdateItem (the_key self item_id user_id) (update_expr t c)
           (update_vals env t c)]))) /\
  (delete_item (the_key self item_id user_id) (backend w) = (Raise e, b') ->
   DynamoNotes.delete self item_id user_id w
   = (Raise (surfaced e),
      World b' (calls w ++ [DeleteItem (the_key self item_id user_id)]))).
Proof.
  intros Hu Hf.
  assert (Hu' : truthy (DynamoNotes.sort_key_name self) = true ->
                user_id <> None).
  { intros Hs. destruct user_id; [done|]. specialize (Hu Hs). done. }
  repeat split; intros Hop.
  - rewrite create_run by done. by apply remote_raises.
  - rewrite (get_run _ _ _ (the_key self item_id user_id))
      by (by apply make_key_the_key).
    by apply remote_raises_last.
  - rewrite list_run. by apply remote_raises.
  - rewrite (update_run _ _ _ _ _ _ (the_key self item_id user_id))
      by (done || by apply make_key_the_key).
    by apply remote_raises.
  - rewrite (delete_run _ _ _ (the_key self item_id user_id))
      by (by apply make_key_the_key).
    by apply remote_raises_last.
Qed.

End RemoteFailures.

(** X1: when the remote call of an operation fails with an error of boto3
    ([BotoCoreError] or [ClientError]), the operation raises [StorageError]
    with the message of that error, after exactly that one call; this holds
    for [create], [get], [list], [update] and [delete] on every backend. *)
Theorem boto_errors_become_storage_errors :
  forall (B : Type) (HB : Backend B) (self : DynamoNotes.t) (env : readings)
         (title content item_id : string) (cid t c user_id : option string)
         (e : exn) (b' : B) (w : world B),
    is_boto_error e = true ->
    sort_key_supplied self user_id ->
    t <> None \/ c <> None ->
    (put_item (created_item self env title content user_id cid) (backend w)
     = (Raise e, b') ->
     DynamoNotes.create self env title content user_id cid w
     = (Raise (StorageError (str_exn e)),
        World b' (calls w ++
          [PutItem (created_item self env title content user_id cid)]))) /\
    (get_item (the_key self item_id user_id) (backend w) = (Raise e, b') ->
     DynamoNotes.get self item_id user_id w
     = (Raise (StorageError (str_exn e)),
        World b' (calls w ++ [GetItem (the_key self item_id user_id)]))) /\
    (scan (list_filter self user_id) (backend w) = (Raise e, b') ->
     DynamoNotes.list self user_id w
     = (Raise (StorageError (str_exn e)),
        World b' (calls w ++ [Scan (list_filter self user_id)]))) /\
    (update_item (the_key self item_id user_id) (update_expr t c)
       (update_vals env t c) (backend w) = (Raise e, b') ->
     DynamoNotes.update self env item_id t c user_id w
     = (Raise (StorageError (str_exn e)),
        World b' (calls w ++
          [UpdateItem (the_key self item_id user_id) (update_expr t c)
             (update_vals env t c)]))) /\
    (delete_item (the_key self item_id user_id) (backend w) = (Raise e, b') ->
     DynamoNotes.delete self item_id user_id w
     = (Raise (StorageError (str_exn e)),
        World b' (calls w ++ [DeleteItem (the_key self item_id user_id)]))).
Proof.
  intros B HB self env title content item_id cid t c user_id e b' w He Hu Hf.
  pose proof (operations_surface_failures self env title content item_id cid
                t c user_id e b' w Hu Hf) as Hs.
  unfold surfaced in Hs. rewrite He in Hs. exact Hs.
Qed.

Lemma boto_errors_become_storage_errors_witness :
  DynamoNotes.get notes_store "n1" (Some "ana") (World throttled_table [])
  = (Raise (StorageError "ProvisionedThroughputExceededException"),
     World (set_faults [] throttled_table)
       [GetItem (the_key notes_store "n1" (Some "ana"))]).
Proof.
  destruct (boto_errors_become_storage_errors table _ notes_store noon
              "Groceries" "Milk" "n1" None (Some "Groceries v2") None
              (Some "ana")
              (ClientError "ProvisionedThroughputExceededException")
              (set_faults [] throttled_table) (World throttled_table [])
              eq_refl (fun _ => eq_refl) (or_introl (Some_ne_None _)))
    as (_ & Hget & _).
  apply Hget. reflexivity.
Defined.

(** X2: an exception of the remote call that is neither a [BotoCoreError]
    nor a [ClientError] leaves each of the five operations as it is, not
    wrapped in a [StorageError]. *)
Theorem other_exceptions_leave_unwrapped :
  forall (B : Type) (HB : Backend B) (self : DynamoNotes.t) (env : readings)
         (title content item_id : string) (cid t c user_id : option string)
         (e : exn) (b' : B) (w : world B),
    is_boto_error e = false ->
    sort_key_supplied self user_id ->
    t <> None \/ c <> None ->
    (put_item (created_item self env title content user_id cid) (backend w)
     = (Raise e, b') ->
     DynamoNotes.create self env title content user_id cid w
     = (Raise e,
        World b' (calls w ++
          [PutItem (created_item self env title content user_id cid)]))) /\
    (get_item (the_key self item_id user_id) (backend w) = (Raise e, b') ->
     DynamoNotes.get self item_id user_id w
     = (Raise e,
        World b' (calls w ++ [GetItem (the_key self item_id user_id)]))) /\
    (scan (list_filter self user_id) (backend w) = (Raise e, b') ->
     DynamoNotes.list self user_id w
     = (Raise e, World b' (calls w ++ [Scan (list_filter self user_id)]))) /\
    (update_item (the_key self item_id user_id) (update_expr t c)
       (update_vals env t c) (backend w) = (Raise e, b') ->
     DynamoNotes.update self env item_id t c user_id w
     = (Raise e,
        World b' (calls w ++
          [UpdateItem (the_key self item_id user_id) (update_expr t c)
             (update_vals env t c)]))) /\
    (delete_item (the_key self item_id user_id) (backend w) = (Raise e, b') ->
     DynamoNotes.delete self item_id user_id w
     = (Raise e,
        World b' (calls w ++ [DeleteItem (the_key self item_id user_id)]))).
Proof.
  intros B HB self env title content item_id cid t c user_id e b' w He Hu Hf.
  pose proof (operations_surface_failures self env title content item_id cid
                t c user_id e b' w Hu Hf) as Hs.
  unfold surfaced in Hs. rewrite He in Hs. exact Hs.
Qed.

Lemma other_exceptions_leave_unwrapped_witness :
  DynamoNotes.delete notes_store "n1" (Some "ana") (World crashing_table [])
  = (Raise (OtherException "ConnectionResetError" "connection reset by peer"),
     World (set_faults [] crashing_table)
       [DeleteItem (the_key notes_store "n1" (Some "ana"))]).
Proof.
  destruct (other_exceptions_leave_unwrapped table _ notes_store noon
              "Groceries" "Milk" "n1" None (Some "Groceries v2") None
              (Some "ana")
              (OtherException "ConnectionResetError"
                 "connection reset by peer")
              (set_faults [] crashing_table) (World crashing_table [])
              eq_refl (fun _ => eq_refl) (or_introl (Some_ne_None _)))
    as (_ & _ & _ & _ & Hdel).
  apply Hdel. reflexivity.
Defined.

(** ** A table without a sort key *)

(** X3: on a store without a sort key the sort-key value is ignored: every
    operation does with any [user_id] what it does with none; in
    particular [create] does not keep the value in the item. *)
Theorem sort_key_value_is_ignored_without_sort_key :
  forall (B : Type) (HB : Backend B) (self : DynamoNotes.t) (env : readings)
         (title content item_id : string) (cid t c user_id : option string)
         (w : world B),
    truthy (DynamoNotes.sort_key_name self) = false ->
    DynamoNotes.create self env title content user_id cid w
    = DynamoNotes.create self env title content None cid w /\
    DynamoNotes.get self item_id user_id w
    = DynamoNotes.get self item_id None w /\
    DynamoNotes.list self user_id w = DynamoNotes.list self None w /\
    DynamoNotes.update self env item_id t c user_id w
    = DynamoNotes.update self env item_id t c None w /\
    DynamoNotes.delete self item_id user_id w
    = DynamoNotes.delete self item_id None w /\
    created_item self env title content user_id cid
    = created_item self env title content None cid.
Proof.
  intros B HB self env title content item_id cid t c user_id w Hs.
  repeat split.
  - unfold DynamoNotes.create. by rewrite Hs.
  - unfold DynamoNotes.get, DynamoNotes.make_key. by rewrite Hs.
  - rewrite !list_run. unfold list_filter. by rewrite Hs, !andb_false_r.
  - unfold DynamoNotes.update, DynamoNotes.make_key. by rewrite Hs.
  - unfold DynamoNotes.delete, DynamoNotes.make_key. by rewrite Hs.
  - unfold created_item. by rewrite Hs.
Qed.

Lemma sort_key_value_is_ignored_without_sort_key_witness :
  DynamoNotes.create plain_store noon "Groceries" "Milk" (Some "ana") None
    (World plain_table [])
  = DynamoNotes.create plain_store noon "Groceries" "Milk" None None
      (World plain_table []) /\
  created_item plain_store noon "Groceries" "Milk" (Some "ana") None
    !! "user_id" = None.
Proof.
  destruct (sort_key_value_is_ignored_without_sort_key table _ plain_store
              noon "Groceries" "Milk" "n1" None None None (Some "ana")
              (World plain_table []) eq_refl)
    as (Hc & _ & _ & _ & _ & Hi).
  split; [exact Hc|]. rewrite Hi. vm_compute. reflexivity.
Defined.

(** ** What [list] returns *)

Lemma stocked_table_one_page : one_page (items stocked_table).
Proof. apply N.leb_le. vm_compute. reflexivity. Qed.

Lemma pantry_table_one_page : one_page (items pantry_table).
Proof. apply N.leb_le. vm_compute. reflexivity. Qed.

(** X4: on a store with a sort key, [list] with a non-empty sort-key value
    returns the items of the table whose sort-key attribute has that value,
    and no other, where the table fits in one page of a scan; the table is
    left as it was. *)
Theorem list_returns_the_notes_of_the_user :
  forall (self : DynamoNotes.t) (t : table) (cs : list call) (u : string),
    healthy t -> one_page (items t) ->
    truthy (DynamoNotes.sort_key_name self) = true ->
    u <> "" ->
    exists l : list item,
      DynamoNotes.list self (Some u) (World t cs)
      = (Ok l, World t (cs ++ [Scan (Some (DynamoNotes.sort_name self, u))])) /\
      (forall it : item,
         it ∈ l <->
         it ∈ items t /\ it !! DynamoNotes.sort_name self = Some u).
Proof.
  intros self t cs u Hh Hp Hs Hu.
  assert (Hf : list_filter self (Some u)
               = Some (DynamoNotes.sort_name self, u)).
  { unfold list_filter. rewrite Hs. by destruct u. }
  eexists. split.
  - rewrite list_on_table by done. rewrite Hf. reflexivity.
  - intros it. rewrite list_elem_of_filter. tauto.
Qed.

Lemma list_returns_the_notes_of_the_user_witness :
  exists l : list item,
    DynamoNotes.list notes_store (Some "ana") (World stocked_table [])
    = (Ok l, World stocked_table [Scan (Some ("user_id", "ana"))]) /\
    (forall it : item,
       it ∈ l <-> it ∈ [groceries] /\ it !! "user_id" = Some "ana").
Proof.
  apply (list_returns_the_notes_of_the_user notes_store stocked_table []
           "ana" eq_refl stocked_table_one_page eq_refl (nonempty_string _ _)).
Defined.

(** X5: [list] without a sort-key value, with the empty one, or on a store
    without a sort key, returns every item of a table that fits in one page
    of a scan, in the order of the scan, whatever sort-key values the items
    have. *)
Theorem list_without_filter_returns_every_note :
  forall (self : DynamoNotes.t) (t : table) (cs : list call)
         (user_id : option string),
    healthy t -> one_page (items t) ->
    truthy user_id = false \/ truthy (DynamoNotes.sort_key_name self) = false ->
    DynamoNotes.list self user_id (World t cs)
    = (Ok (items t), World t (cs ++ [Scan None])).
Proof.
  intros self t cs user_id Hh Hp Hn.
  assert (Hf : list_filter self user_id = None).
  { unfold list_filter. destruct Hn as [-> | ->]; [done|].
    by rewrite andb_false_r. }
  rewrite list_on_table by done. by rewrite Hf.
Qed.

Lemma list_without_filter_returns_every_note_witness :
  DynamoNotes.list notes_store None (World stocked_table [])
  = (Ok [groceries], World stocked_table [Scan None]).
Proof.
  apply (list_without_filter_returns_every_note notes_store stocked_table []
           None eq_refl stocked_table_one_page (or_introl eq_refl)).
Defined.

(** ** The note [create] builds *)

Lemma not_note_field a :
  a ∉ note_fields ->
  a <> "title" /\ a <> "content" /\ a <> "created_at" /\ a <> "updated_at".
Proof.
  unfold note_fields. intros Ha.
  repeat split; intros ->; apply Ha; set_solver.
Qed.

(** X6: when the write succeeds, [create] returns the item it wrote: its id
    is the explicit id if that is non-empty and the generated one otherwise,
    [created_at] and [updated_at] both hold the timestamp of the call, title
    and content are the arguments, and on a store with a sort key the sort-key
    attribute holds the supplied value. *)
Theorem create_builds_the_note :
  forall (B : Type) (HB : Backend B) (self : DynamoNotes.t) (env : readings)
         (title content : string) (user_id cid : option string)
         (w : world B) (b' : B),
    keys_apart self ->
    (truthy (DynamoNotes.sort_key_name self) = true ->
     DynamoNotes.sort_name self <> DynamoNotes.key_name self) ->
    sort_key_supplied self user_id ->
    put_item (created_item self env title content user_id cid) (backend w)
    = (Ok tt, b') ->
    exists it : item,
      DynamoNotes.create self env title content user_id cid w
      = (Ok it, World b' (calls w ++ [PutItem it])) /\
      (truthy cid = true -> it !! DynamoNotes.key_name self = cid) /\
      (truthy cid = false ->
       it !! DynamoNotes.key_name self = Some (uuid4 env)) /\
      it !! "title" = Some title /\
      it !! "content" = Some content /\
      it !! "created_at" = Some (now_iso env) /\
      it !! "updated_at" = Some (now_iso env) /\
      (truthy (DynamoNotes.sort_key_name self) = true ->
       it !! DynamoNotes.sort_name self = user_id).
Proof.
  intros B HB self env title content user_id cid w b' Hka Hd Hu Hput.
  exists (created_item self env title content user_id cid).
  destruct (created_item_fields self env title content user_id cid Hka Hd)
    as (Ht & Hc & Hca & Hua & Hid).
  split; [by apply create_ok|].
  repeat split; try done.
  - intros Hcid. rewrite Hid. unfold or_str. rewrite Hcid.
    by destruct cid.
  - intros Hcid. rewrite Hid. unfold or_str. by rewrite Hcid.
  - intros Hs. rewrite created_item_sort by done.
    destruct (truthy_some _ (Hu Hs)) as (u & -> & _). done.
Qed.

Lemma create_builds_the_note_witness :
  exists it : item,
    DynamoNotes.create notes_store noon "Groceries" "Milk, eggs" (Some "ana")
      (Some "") (World notes_table [])
    = (Ok it,
       World (set_items [it] notes_table) [PutItem it]) /\
    it !! "id" = Some (uuid4 noon) /\
    it !! "created_at" = it !! "updated_at".
Proof.
  destruct (create_builds_the_note table _ notes_store noon "Groceries"
              "Milk, eggs" (Some "ana") (Some "") (World notes_table [])
              (set_items
                 [created_item notes_store noon "Groceries" "Milk, eggs"
                    (Some "ana") (Some "")] notes_table)
              notes_store_keys_apart
              (fun _ => ltac:(vm_compute; congruence))
              (fun _ => eq_refl)
              ltac:(vm_compute; reflexivity))
    as (it & Hrun & _ & Hid & _ & _ & Hca & Hua & _).
  exists it. split.
  - rewrite Hrun. injection Hrun as <-. reflexivity.
  - split; [exact (Hid eq_refl)|]. by rewrite Hca, Hua.
Defined.

(** ** Deleting and updating on the table *)

(** X7: on a healthy table the store was configured for, [delete] with an
    id and a sort-key value that are not empty succeeds whether or not the
    key is there; after it [get] of the same key returns the absent result,
    and the notes under other keys are the same as before. *)
Theorem delete_then_get_is_absent :
  forall (self : DynamoNotes.t) (t : table) (cs : list call)
         (item_id : string) (user_id : option string),
    agrees self t -> healthy t ->
    item_id <> "" -> sort_key_supplied self user_id ->
    exists (w1 w2 : world table),
      DynamoNotes.delete self item_id user_id (World t cs) = (Ok tt, w1) /\
      DynamoNotes.get self item_id user_id w1 = (Ok None, w2) /\
      (forall k, k <> note_key self item_id user_id ->
                 lookup_item (backend w1) k = lookup_item t k).
Proof.
  intros self t cs item_id user_id Ha Hh Hid Hu.
  destruct (delete_on_table self t cs item_id user_id Ha Hh Hid Hu)
    as (k1 & Hdel).
  set (t1 := set_items
               (filter (other_key t (note_key self item_id user_id)) (items t))
               t) in *.
  destruct (get_on_table self t1 (cs ++ [DeleteItem k1]) item_id user_id
              Ha Hh Hid Hu) as (k2 & Hget).
  exists (World t1 (cs ++ [DeleteItem k1])),
    (World t1 ((cs ++ [DeleteItem k1]) ++ [GetItem k2])).
  split; [done|]. split.
  - rewrite Hget. f_equal. f_equal.
    exact (f_equal head
             (filter_bears_other t (note_key self item_id user_id) (items t))).
  - intros k Hk.
    exact (f_equal head
             (filter_bears_other_ne t k (note_key self item_id user_id)
                (items t) Hk)).
Qed.

Lemma delete_then_get_is_absent_witness :
  exists (w1 w2 : world table),
    DynamoNotes.delete notes_store "n1" (Some "ana") (World stocked_table [])
    = (Ok tt, w1) /\
    DynamoNotes.get notes_store "n1" (Some "ana") w1 = (Ok None, w2) /\
    (forall k, k <> note_key notes_store "n1" (Some "ana") ->
               lookup_item (backend w1) k = lookup_item stocked_table k).
Proof.
  apply (delete_then_get_is_absent notes_store stocked_table [] "n1"
           (Some "ana") (notes_store_agrees [groceries]) eq_refl
           (nonempty_string _ _) (fun _ => eq_refl)).
Defined.

(** When the key attributes are none of the note's fields, an update
    assigns no key attribute. *)
Lemma touches_key_apart self t env title content :
  agrees self t -> keys_apart self ->
  touches_key t (assignments env title content) = false.
Proof.
  intros Ha (Hk & Hs).
  apply not_note_field in Hk as (Hk1 & Hk2 & _ & Hk4).
  assert (Hin : forall a, a ∈ key_attrs t ->
                          a <> "title" /\ a <> "content" /\ a <> "updated_at").
  { intros a Hin. unfold key_attrs in Hin.
    destruct (truthy (DynamoNotes.sort_key_name self)) eqn:Hsk.
    - destruct (agrees_sorted _ _ Ha Hsk) as (Hh & Hr & _).
      apply not_note_field in Hs as (Hs1 & Hs2 & _ & Hs4); [|done].
      rewrite Hr, <- Hh in Hin.
      apply elem_of_union in Hin as [Hin | Hin];
        apply elem_of_singleton in Hin; by subst a.
    - destruct (agrees_plain _ _ Ha Hsk) as (Hh & Hr).
      rewrite Hr, <- Hh in Hin. apply elem_of_singleton in Hin. by subst a. }
  assert (Hno : forall a, (a = "title" \/ a = "content" \/ a = "updated_at") ->
                          bool_decide (a ∈ key_attrs t) = false).
  { intros a Ha'. apply bool_decide_eq_false. intros Hin'.
    destruct (Hin a Hin') as (? & ? & ?). by destruct Ha' as [|[|]]. }
  unfold touches_key, assignments.
  destruct title, content; simpl; rewrite ?Hno; auto.
Qed.

(** [update] on a healthy table the store was configured for, with an id
    and a sort-key value that are not empty: it succeeds, returns the item
    under the key (or the key itself, where there is none) with the
    assignments applied, and stores it. *)
Lemma update_on_table self t cs env item_id title content user_id :
  agrees self t -> healthy t -> keys_apart self ->
  title <> None \/ content <> None ->
  item_id <> "" -> sort_key_supplied self user_id ->
  let k := note_key self item_id user_id in
  let new := foldl assign
               (default (the_key self item_id user_id) (lookup_item t k))
               (assignments env title content) in
  DynamoNotes.update self env item_id title content user_id (World t cs)
  = (Ok new,
     World (set_items (filter (other_key t k) (items t) ++ [new]) t)
       (cs ++ [UpdateItem (the_key self item_id user_id)
                 (update_expr title content)
                 (update_vals env title content)])).
Proof.
  intros Ha Hh Hka Hf Hid Hu k new.
  pose proof (supplied_not_none _ _ Hu) as Hu'.
  destruct (make_key_agrees self t item_id user_id "update the item"
              (World t cs) Ha Hu') as (key & Hmk & Hik & Hko).
  rewrite make_key_the_key in Hmk by done. injection Hmk as <-.
  rewrite (update_run _ _ _ _ _ _ (the_key self item_id user_id))
    by (done || by apply make_key_the_key).
  unfold try_storage, bind, remote, ret. simpl.
  unfold tbl_update. rewrite transport_healthy by done.
  rewrite (Hik Hid Hu), resolved_update by done.
  rewrite (touches_key_apart self t) by done. by rewrite Hko.
Qed.

(** X8: a note created and then updated with a title only has the new
    title, the content and the [created_at] of its creation, the id
    [create] returned, and the timestamp of the update as [updated_at]; a
    following [get] returns it.  The generated id is not empty. *)
Theorem create_then_update_title :
  forall (self : DynamoNotes.t) (t : table) (cs : list call)
         (env1 env2 : readings) (title content title2 : string)
         (user_id cid : option string),
    agrees self t -> healthy t -> keys_apart self ->
    sort_key_supplied self user_id ->
    uuid4 env1 <> "" ->
    exists (it new : item) (w1 w2 w3 : world table),
      DynamoNotes.create self env1 title content user_id cid (World t cs)
      = (Ok it, w1) /\
      DynamoNotes.update self env2 (returned_id self it) (Some title2) None
        user_id w1 = (Ok new, w2) /\
      DynamoNotes.get self (returned_id self it) user_id w2
      = (Ok (Some new), w3) /\
      new !! "title" = Some title2 /\
      new !! "content" = Some content /\
      new !! "created_at" = Some (now_iso env1) /\
      new !! "updated_at" = Some (now_iso env2) /\
      new !! DynamoNotes.key_name self = it !! DynamoNotes.key_name self.
Proof.
  intros self t cs env1 env2 title content title2 user_id cid Ha Hh Hka Hu
    Huuid.
  set (it := created_item self env1 title content user_id cid).
  destruct (created_item_key self t env1 title content user_id cid Ha Hu)
    as (rid & Hrid & Hk). fold it in Hrid, Hk.
  assert (Hd : truthy (DynamoNotes.sort_key_name self) = true ->
               DynamoNotes.sort_name self <> DynamoNotes.key_name self).
  { intros Hs. by destruct (agrees_sorted _ _ Ha Hs) as (_ & _ & Hd). }
  destruct (created_item_fields self env1 title content user_id cid Hka Hd)
    as (Ht & Hc & Hca & _ & _). fold it in Ht, Hc, Hca.
  assert (Hid : it !! DynamoNotes.key_name self <> Some "").
  { apply (created_id_nonempty self t); [done..|]. by apply or_str_nonempty. }
  assert (Hrne : rid <> "") by (intros ->; by apply Hid).
  set (t1 := set_items (filter (other_key t (key_of t it)) (items t) ++ [it]) t).
  assert (Hl1 : lookup_item t1 (note_key self rid user_id) = Some it).
  { rewrite <- Hk. unfold t1. by rewrite lookup_after_put. }
  pose proof (update_on_table self t1 (cs ++ [PutItem it]) env2 rid
                (Some title2) None user_id Ha Hh Hka
                (or_introl (Some_ne_None _)) Hrne Hu) as Hupd.
  cbv zeta in Hupd. rewrite Hl1 in Hupd.
  change (default (the_key self rid user_id) (Some it)) with it in Hupd.
  set (new := foldl assign it (assignments env2 (Some title2) None)) in *.
  set (t2 := set_items
               (filter (other_key t1 (note_key self rid user_id)) (items t1)
                  ++ [new]) t1) in *.
  set (cs2 := (cs ++ [PutItem it]) ++ _) in Hupd.
  assert (Hkeys : forall a, a ∈ key_attrs t -> new !! a = it !! a).
  { intros a Hin. apply foldl_assign_other.
    apply (touches_key_spares t); [|done]. by apply (touches_key_apart self). }
  assert (Hkn : key_of t new = note_key self rid user_id).
  { by rewrite (key_of_same t it new Hkeys). }
  destruct (get_on_table self t2 cs2 rid user_id Ha Hh Hrne Hu)
    as (k2 & Hget).
  pose proof (updated_lookup env2 (Some title2) None it) as Hl.
  fold new in Hl.
  exists it, new, (World t1 (cs ++ [PutItem it])), (World t2 cs2),
    (World t2 (cs2 ++ [GetItem k2])).
  split; [by apply create_on_table|].
  unfold returned_id. rewrite Hrid.
  change (default "" (Some rid)) with rid.
  split; [exact Hupd|]. split.
  - rewrite Hget. do 2 f_equal.
    exact (lookup_after_put t1 (note_key self rid user_id) new (items t1) Hkn).
  - repeat split.
    + by rewrite Hl.
    + by rewrite Hl.
    + by rewrite Hl.
    + by rewrite Hl.
    + rewrite <- Hrid. apply Hkeys. destruct Ha as (-> & _).
      apply hash_name_is_key.
Qed.

Lemma create_then_update_title_witness :
  exists (it new : item) (w1 w2 w3 : world table),
    DynamoNotes.create plain_store noon "Groceries" "Milk, eggs" None None
      (World plain_table []) = (Ok it, w1) /\
    DynamoNotes.update plain_store later (returned_id plain_store it)
      (Some "Groceries v2") None None w1 = (Ok new, w2) /\
    DynamoNotes.get plain_store (returned_id plain_store it) None w2
    = (Ok (Some new), w3) /\
    new !! "title" = Some "Groceries v2" /\
    new !! "content" = Some "Milk, eggs" /\
    new !! "created_at" = Some (now_iso noon) /\
    new !! "updated_at" = Some (now_iso later) /\
    new !! "id" = it !! "id".
Proof.
  apply (create_then_update_title plain_store plain_table [] noon later
           "Groceries" "Milk, eggs" "Groceries v2" None None
           (plain_store_agrees []) eq_refl plain_store_keys_apart).
  - discriminate.
  - discriminate.
Defined.

(** * Further properties of the constructor *)

(** The names the constructor leaves are those its loop leaves on the
    entries it saw; what discovery raised is dropped. *)
Lemma init_by_entries tbl name key_name sort_key_name :
  DynamoNotes.init (Some (Boto3 (fun _ => Ok tbl))) name key_name sort_key_name
  = Ok (DynamoNotes.for_entries (seen_entries tbl name)
          (DynamoNotes.Attrs (PStr (or_str key_name "id"))
             (py_of_opt sort_key_name))).2.
Proof.
  unfold DynamoNotes.init, seen_entries, read_schema. simpl.
  unfold try_pass, DynamoNotes.discover, bind, lift, ret.
  set (s0 := DynamoNotes.Attrs _ _).
  destruct (DynamoNotes.getattr_key_schema tbl) as [ks|e]; [|done].
  destruct (py_truthy ks) eqn:Hks; simpl.
  - rewrite Hks.
    destruct (py_iter ks) as [l|e]; [|done].
    by destruct (DynamoNotes.for_entries l s0) as [[[]|e] a].
  - destruct (describe_table tbl name) as [desc|e]; [|done].
    destruct (py_get desc "Table" (PDict [])) as [tb|e]; [|done].
    destruct (py_get tb "KeySchema" PNone) as [ks'|e]; [|done].
    destruct (py_truthy ks'); [|done].
    destruct (py_iter ks') as [l|e]; [|done].
    by destruct (DynamoNotes.for_entries l s0) as [[[]|e] a].
Qed.

(** X9: a non-empty explicit sort key name is the sort key name of the
    store, whatever the table resource answers or raises during
    discovery. *)
Theorem explicit_sort_key_name_wins :
  forall (tbl : table_resource) (name s : string) (key_name : option string),
    s <> "" ->
    exists a,
      DynamoNotes.init (Some (Boto3 (fun _ => Ok tbl))) name key_name (Some s)
      = Ok a /\
      DynamoNotes.self_sort_key_name a = PStr s.
Proof.
  intros tbl name s key_name Hs. rewrite init_by_entries.
  eexists. split; [reflexivity|].
  rewrite for_entries_keeps_sort; [done|]. by destruct s.
Qed.

Lemma explicit_sort_key_name_wins_witness :
  exists a,
    DynamoNotes.init (Some (Boto3 (fun _ => Ok (resource_of notes_table))))
      "Notes_Table" None (Some "owner") = Ok a /\
    DynamoNotes.self_sort_key_name a = PStr "owner".
Proof.
  apply (explicit_sort_key_name_wins (resource_of notes_table) "Notes_Table"
           "owner" None (nonempty_string _ _)).
Defined.

(** X10: when the resource has no attribute [key_schema], or a falsy one,
    the constructor takes the key schema from [describe_table]: the store it
    builds is the one it builds for a resource that shows this schema in the
    attribute. *)
Theorem schema_is_taken_from_describe_table :
  forall (tbl : table_resource) (name : string)
         (key_name sort_key_name : option string)
         (attr desc tb ks : pyval) (other : string -> result pyval),
    DynamoNotes.getattr_key_schema tbl = Ok attr ->
    py_truthy attr = false ->
    describe_table tbl name = Ok desc ->
    py_get desc "Table" (PDict []) = Ok tb ->
    py_get tb "KeySchema" PNone = Ok ks ->
    py_truthy ks = true ->
    DynamoNotes.init (Some (Boto3 (fun _ => Ok tbl))) name key_name
      sort_key_name
    = DynamoNotes.init
        (Some (Boto3 (fun _ => Ok (TableResource (Ok ks) other)))) name
        key_name sort_key_name.
Proof.
  intros tbl name key_name sort_key_name attr desc tb ks other
    Hattr Hfalsy Hdesc Htb Hks Htruthy.
  rewrite !init_by_entries.
  assert (Hsame : seen_entries tbl name
                  = seen_entries (TableResource (Ok ks) other) name).
  { unfold seen_entries, read_schema.
    rewrite Hattr, Hfalsy. simpl. rewrite Hdesc, Htb, Hks, !Htruthy.
    simpl. by rewrite Htruthy. }
  by rewrite Hsame.
Qed.

Lemma schema_is_taken_from_describe_table_witness :
  DynamoNotes.init (Some (Boto3 (fun _ => Ok described_resource)))
    "Notes_Table" None None
  = Ok (DynamoNotes.Attrs (PStr "id") (PStr "user_id")).
Proof.
  rewrite (schema_is_taken_from_describe_table described_resource
             "Notes_Table" None None PNone
             (PDict [("Table",
                      PDict [("KeySchema", table_schema notes_table)])])
             (PDict [("KeySchema", table_schema notes_table)])
             (table_schema notes_table)
             (fun _ => Raise (ClientError "unused"))
             eq_refl eq_refl eq_refl eq_refl eq_refl eq_refl).
  reflexivity.
Defined.

(** X11: when discovery yields no schema entry (the attribute or
    [describe_table] raises, the answer lacks the schema, the schema is empty
    or cannot be iterated), the constructor returns a store with the explicit
    names, or with the partition key name [id] and no sort key. *)
Theorem no_schema_leaves_explicit_or_default_names :
  forall (tbl : table_resource) (name : string)
         (key_name sort_key_name : option string),
    seen_entries tbl name = [] ->
    DynamoNotes.init (Some (Boto3 (fun _ => Ok tbl))) name key_name
      sort_key_name
    = Ok (DynamoNotes.Attrs (PStr (or_str key_name "id"))
            (py_of_opt sort_key_name)).
Proof.
  intros tbl name key_name sort_key_name Hnone.
  rewrite init_by_entries, Hnone. reflexivity.
Qed.

Lemma no_schema_leaves_explicit_or_default_names_witness :
  DynamoNotes.init (Some (Boto3 (fun _ => Ok silent_resource)))
    "Notes_Table" None None
  = Ok (DynamoNotes.Attrs (PStr "id") PNone) /\
  DynamoNotes.init (Some (Boto3 (fun _ => Ok silent_resource)))
    "Notes_Table" (Some "note_id") (Some "owner")
  = Ok (DynamoNotes.Attrs (PStr "note_id") (PStr "owner")).
Proof.
  split.
  - apply (no_schema_leaves_explicit_or_default_names silent_resource
             "Notes_Table" None None eq_refl).
  - apply (no_schema_leaves_explicit_or_default_names silent_resource
             "Notes_Table" (Some "note_id") (Some "owner") eq_refl).
Defined.

(** * Properties of the web handlers *)

(** ** The order of the notes page *)

Lemma string_compare_refl s : String.compare s s = Eq.
Proof.
  induction s as [|a s IH]; [done|]. simpl.
  unfold Ascii.compare. by rewrite N.compare_refl.
Qed.

Lemma string_leb_refl s : String.leb s s = true.
Proof. unfold String.leb. by rewrite string_compare_refl. Qed.

Lemma string_leb_trans s1 s2 s3 :
  String.leb s1 s2 = true -> String.leb s2 s3 = true ->
  String.leb s1 s3 = true.
Proof.
  unfold String.leb. revert s2 s3.
  induction s1 as [|a s1 IH]; intros [|b s2] [|c s3]; simpl; try done.
  specialize (IH s2 s3).
  unfold Ascii.compare.
  destruct (N.compare_spec (N_of_ascii a) (N_of_ascii b)) as [Hab|Hab|Hab];
    destruct (N.compare_spec (N_of_ascii b) (N_of_ascii c)) as [Hbc|Hbc|Hbc];
    try done;
    destruct (N.compare_spec (N_of_ascii a) (N_of_ascii c)) as [Hac|Hac|Hac];
    try done; try lia.
Qed.

Lemma not_older_trans x y z : not_older x y -> not_older y z -> not_older x z.
Proof. unfold not_older. intros Hxy Hyz. by apply (string_leb_trans _ _ _ Hyz). Qed.

Lemma insert_newest_perm x l : insert_newest x l ≡ₚ x :: l.
Proof.
  induction l as [|y l IH]; [done|]. simpl.
  destruct (String.leb (created_at y) (created_at x)); [done|].
  rewrite IH. apply Permutation_swap.
Qed.

Lemma sorted_newest_first_perm l : sorted_newest_first l ≡ₚ l.
Proof.
  induction l as [|x l IH]; [done|]. simpl.
  by rewrite insert_newest_perm, IH.
Qed.

Lemma insert_newest_sorted x l :
  StronglySorted not_older l -> StronglySorted not_older (insert_newest x l).
Proof.
  induction l as [|y l IH]; intros Hs; simpl.
  - repeat constructor.
  - apply StronglySorted_inv in Hs as [Hl Hy].
    destruct (String.leb (created_at y) (created_at x)) eqn:Hle.
    + constructor; [by constructor|]. constructor; [exact Hle|].
      eapply Forall_impl; [exact Hy|]. intros z Hz.
      by apply (not_older_trans x y z).
    + constructor; [by apply IH|].
      rewrite insert_newest_perm. constructor; [|done].
      unfold not_older.
      destruct (String.leb_total (created_at x) (created_at y)) as [H|H];
        [done|congruence].
Qed.

Lemma sorted_newest_first_sorted l :
  StronglySorted not_older (sorted_newest_first l).
Proof.
  induction l as [|x l IH]; simpl; [constructor|].
  by apply insert_newest_sorted.
Qed.

(** The sort is stable: the notes of one timestamp keep their order. *)
Lemma insert_newest_stable ts x l :
  StronglySorted not_older l ->
  filter (fun y => created_at y = ts) (insert_newest x l)
  = filter (fun y => created_at y = ts) (x :: l).
Proof.
  induction l as [|y l IH]; intros Hs; [done|]. simpl.
  apply StronglySorted_inv in Hs as [Hl Hy].
  destruct (String.leb (created_at y) (created_at x)) eqn:Hle; [done|].
  rewrite (filter_cons _ y), IH by done.
  rewrite !(filter_cons _ x), (filter_cons _ y).
  destruct (decide (created_at y = ts)) as [Hyt|Hyt]; [|done].
  destruct (decide (created_at x = ts)) as [Hxt|Hxt]; [|done].
  rewrite Hyt, Hxt, string_leb_refl in Hle. discriminate.
Qed.

Lemma sorted_newest_first_stable ts l :
  filter (fun y => created_at y = ts) (sorted_newest_first l)
  = filter (fun y => created_at y = ts) l.
Proof.
  induction l as [|x l IH]; [done|]. simpl.
  rewrite insert_newest_stable by apply sorted_newest_first_sorted.
  by rewrite !filter_cons, IH.
Qed.

(** X12: the notes page shows the notes [list] returned, each once, newest
    first by [created_at]; notes with the same [created_at] keep the order
    [list] gave them. *)
Theorem index_shows_the_notes_newest_first :
  forall (B : Type) (HB : Backend B) (store : DynamoNotes.t)
         (default_user_id : option string) (w w' : world B) (l : list item),
    DynamoNotes.list store default_user_id w = (Ok l, w') ->
    exists page : list item,
      FlaskApp.index store default_user_id w
      = (Ok (NotesPage page (DynamoNotes.key_name store) default_user_id),
         w') /\
      page ≡ₚ l /\
      StronglySorted not_older page /\
      (forall ts, filter (fun y => created_at y = ts) page
                  = filter (fun y => created_at y = ts) l).
Proof.
  intros B HB store duid w w' l Hl.
  exists (sorted_newest_first l). split.
  - unfold FlaskApp.index, bind. by rewrite Hl.
  - split; [apply sorted_newest_first_perm|].
    split; [apply sorted_newest_first_sorted|].
    intros ts. apply sorted_newest_first_stable.
Qed.

Lemma index_shows_the_notes_newest_first_witness :
  exists page : list item,
    FlaskApp.index notes_store None (World pantry_table [])
    = (Ok (NotesPage page "id" None), World pantry_table [Scan None]) /\
    page ≡ₚ [groceries; breakfast] /\
    StronglySorted not_older page /\
    (forall ts, filter (fun y => created_at y = ts) page
                = filter (fun y => created_at y = ts) [groceries; breakfast]).
Proof.
  apply (index_shows_the_notes_newest_first table _ notes_store None
           (World pantry_table []) (World pantry_table [Scan None])
           [groceries; breakfast]).
  apply (list_on_table notes_store pantry_table [] None eq_refl
           pantry_table_one_page).
Defined.

(** ** What the handlers do with a [StorageError] *)

(** X13: the handlers [delete] and [edit] never let a [StorageError] out:
    whatever the request and the backend, what they raise, if anything, is
    of another class. *)
Theorem delete_and_edit_catch_storage_errors :
  forall (B : Type) (HB : Backend B) (store : DynamoNotes.t)
         (default_user_id : option string) (env : readings) (req : request)
         (w : world B),
    lets_out_storage_error (FlaskApp.delete store default_user_id req w).1
    = false /\
    lets_out_storage_error (FlaskApp.edit store default_user_id env req w).1
    = false.
Proof.
  intros B HB store duid env req w. split.
  - unfold FlaskApp.delete.
    destruct (negb (truthy _)); [done|].
    unfold bind, catch_storage.
    destruct (DynamoNotes.delete _ _ _ w) as [[[]|e] w1]; [done|].
    by destruct e.
  - unfold FlaskApp.edit.
    destruct (bool_decide (method req = "GET")).
    + destruct (negb (truthy _)); [done|].
      unfold bind, catch_storage.
      destruct (DynamoNotes.get _ _ _ w) as [[[it|]|e] w1].
      * simpl. by destruct (bool_decide (it = ∅)).
      * done.
      * by destruct e.
    + destruct (negb (truthy _)); [done|].
      unfold bind, catch_storage.
      destruct (DynamoNotes.update _ _ _ _ _ _ w) as [[it|e] w1]; [done|].
      by destruct e.
Qed.

Lemma or_opt_truthy a b : truthy a = true -> or_opt a b = a.
Proof. unfold or_opt. by intros ->. Qed.

Lemma or_opt_falsy a b : truthy a = false -> or_opt a b = b.
Proof. unfold or_opt. by intros ->. Qed.

(** X14: on a store with a sort key, a request that carries no user id, with
    no default user id set, makes no remote call; [delete] and [edit] answer
    it with status 500 and the message of the store, while [add] lets the
    [StorageError] out. *)
Theorem missing_user_id_in_the_web_ui :
  forall (B : Type) (HB : Backend B) (store : DynamoNotes.t) (env : readings)
         (id title content : string) (fields : item) (w : world B),
    truthy (DynamoNotes.sort_key_name store) = true ->
    id <> "" -> title <> "" -> content <> "" ->
    fields !! "id" = Some id ->
    fields !! "user_id" = None ->
    fields !! "title" = Some title ->
    fields !! "content" = Some content ->
    FlaskApp.delete store None (Request "POST" ∅ fields) w
    = (Ok (Http (Response ("delete failed: Table has sort key '" +:+
              DynamoNotes.sort_name store +:+
              "'; provide --user-id to delete the item") 500)), w) /\
    FlaskApp.edit store None env (Request "GET" fields ∅) w
    = (Ok (Http (Response ("fetch failed: Table has sort key '" +:+
              DynamoNotes.sort_name store +:+
              "'; provide --user-id to identify the item") 500)), w) /\
    FlaskApp.edit store None env (Request "POST" ∅ fields) w
    = (Ok (Http (Response ("update failed: Table has sort key '" +:+
              DynamoNotes.sort_name store +:+
              "'; provide --user-id to update the item") 500)), w) /\
    add store None env fields w
    = (Raise (StorageError ("Table requires sort key '" +:+
         DynamoNotes.sort_name store +:+ "'; provide user_id")), w).
Proof.
  intros B HB store env id title content fields w Hs Hid Ht Hc
    Hfid Hfu Hft Hfc.
  assert (Htid : truthy (Some id) = true) by (by destruct id).
  assert (Htt : truthy (Some title) = true) by (by destruct title).
  assert (Htc : truthy (Some content) = true) by (by destruct content).
  assert (Hno : or_opt None None = None) by reflexivity.
  repeat split.
  - unfold FlaskApp.delete. simpl.
    rewrite Hfid, Hfu, (or_opt_truthy (Some id)), Htid, Hno by done.
    unfold bind, catch_storage, DynamoNotes.delete, try_storage. simpl.
    unfold bind. rewrite make_key_none by done. reflexivity.
  - unfold FlaskApp.edit. simpl.
    rewrite Hfid, Hfu, (or_opt_truthy (Some id)), Htid, Hno by done.
    unfold bind, catch_storage, DynamoNotes.get, try_storage. simpl.
    unfold bind. rewrite make_key_none by done. reflexivity.
  - unfold FlaskApp.edit. simpl.
    rewrite Hfid, Hfu, Hft, Hfc, (or_opt_truthy (Some id)), Htid, Hno by done.
    unfold bind, catch_storage, DynamoNotes.update, try_storage. simpl.
    unfold bind. rewrite make_key_none by done. reflexivity.
  - unfold add. rewrite Hft, Hfc, Hfu, Htt, Htc, Hno. simpl.
    unfold bind. rewrite create_without_sort_key by done. reflexivity.
Qed.

Lemma missing_user_id_in_the_web_ui_witness :
  FlaskApp.delete notes_store None (Request "POST" ∅ posted_note)
    (World stocked_table [])
  = (Ok (Http (Response
       ("delete failed: Table has sort key 'user_id'; " +:+
        "provide --user-id to delete the item")
       500)), World stocked_table []) /\
  add notes_store None noon posted_note (World stocked_table [])
  = (Raise (StorageError "Table requires sort key 'user_id'; provide user_id"),
     World stocked_table []).
Proof.
  assert (H1 : posted_note !! "id" = Some "n1") by (vm_compute; reflexivity).
  assert (H2 : posted_note !! "user_id" = None) by (vm_compute; reflexivity).
  assert (H3 : posted_note !! "title" = Some "Groceries")
    by (vm_compute; reflexivity).
  assert (H4 : posted_note !! "content" = Some "Milk")
    by (vm_compute; reflexivity).
  destruct (missing_user_id_in_the_web_ui table _ notes_store noon "n1"
              "Groceries" "Milk" posted_note (World stocked_table []) eq_refl
              (nonempty_string _ _) (nonempty_string _ _)
              (nonempty_string _ _) H1 H2 H3 H4)
    as (Hd & _ & _ & Ha).
  split; [exact Hd|exact Ha].
Defined.

(** ** The edit form *)

(** X15: a posted edit that carries neither a title nor a content field
    makes no remote call, and the [ValueError] of [update] leaves the
    handler: it is not among the errors the handler answers with a 500
    page. *)
Theorem edit_without_fields_raises_value_error :
  forall (B : Type) (HB : Backend B) (store : DynamoNotes.t)
         (default_user_id : option string) (env : readings) (id : string)
         (fields : item) (w : world B),
    id <> "" ->
    fields !! "id" = Some id ->
    fields !! "title" = None ->
    fields !! "content" = None ->
    FlaskApp.edit store default_user_id env (Request "POST" ∅ fields) w
    = (Raise (ValueError
         "At least one of title or content must be provided for update"), w).
Proof.
  intros B HB store duid env id fields w Hid Hfid Hft Hfc.
  assert (Htid : truthy (Some id) = true) by (by destruct id).
  unfold FlaskApp.edit. simpl.
  rewrite Hfid, Hft, Hfc, (or_opt_truthy (Some id)), Htid by done.
  reflexivity.
Qed.

Lemma edit_without_fields_raises_value_error_witness :
  FlaskApp.edit notes_store None later
    (Request "POST" ∅ posted_nothing) (World stocked_table [])
  = (Raise (ValueError
       "At least one of title or content must be provided for update"),
     World stocked_table []).
Proof.
  apply (edit_without_fields_raises_value_error table _ notes_store None later
           "n1" posted_nothing (World stocked_table [])
           (nonempty_string _ _)).
  - vm_compute. reflexivity.
  - vm_compute. reflexivity.
  - vm_compute. reflexivity.
Defined.

(** The item an update leaves under the key of an existing note is the
    updated note. *)
Lemma updated_item_is_stored self t env title content k old :
  agrees self t -> keys_apart self ->
  lookup_item t k = Some old ->
  lookup_item
    (set_items
       (filter (other_key t k) (items t)
          ++ [foldl assign old (assignments env title content)]) t) k
  = Some (foldl assign old (assignments env title content)).
Proof.
  intros Ha Hka Hold. apply lookup_after_put.
  rewrite (key_of_same t old); [by apply lookup_item_bears|].
  intros a Hin. apply foldl_assign_other.
  apply (touches_key_spares t); [|done]. by apply (touches_key_apart self).
Qed.

(** X16: a posted edit of an existing note, with an id and a user id that
    are not empty, stores the posted title as it is, the empty string too
    ([add] would refuse it), keeps the content when no content field is
    posted, keeps [created_at], sets [updated_at], and redirects to the notes
    page. *)
Theorem edit_stores_the_posted_title :
  forall (store : DynamoNotes.t) (t : table) (cs : list call)
         (default_user_id : option string) (env : readings)
         (id title : string) (fields old : item),
    agrees store t -> healthy t -> keys_apart store ->
    id <> "" ->
    fields !! "id" = Some id ->
    fields !! "title" = Some title ->
    fields !! "content" = None ->
    sort_key_supplied store (or_opt (fields !! "user_id") default_user_id) ->
    lookup_item t
      (note_key store id (or_opt (fields !! "user_id") default_user_id))
    = Some old ->
    exists (new : item) (w' : world table),
      FlaskApp.edit store default_user_id env (Request "POST" ∅ fields)
        (World t cs)
      = (Ok (Http (Redirect "index")), w') /\
      lookup_item (backend w')
        (note_key store id (or_opt (fields !! "user_id") default_user_id))
      = Some new /\
      new !! "title" = Some title /\
      new !! "content" = old !! "content" /\
      new !! "created_at" = old !! "created_at" /\
      new !! "updated_at" = Some (now_iso env).
Proof.
  intros store t cs duid env id title fields old Ha Hh Hka Hid Hfid Hft Hfc
    Hu Hold.
  assert (Htid : truthy (Some id) = true) by (by destruct id).
  set (user_id := or_opt (fields !! "user_id") duid) in *.
  pose proof (update_on_table store t cs env id (Some title) None user_id
                Ha Hh Hka (or_introl (Some_ne_None _)) Hid Hu) as Hupd.
  cbv zeta in Hupd. rewrite Hold in Hupd.
  change (default (the_key store id user_id) (Some old)) with old in Hupd.
  set (new := foldl assign old (assignments env (Some title) None)) in *.
  pose proof (updated_lookup env (Some title) None old) as Hl. fold new in Hl.
  exists new. eexists. split; [|split].
  - unfold FlaskApp.edit. simpl.
    rewrite Hfid, Hft, Hfc, (or_opt_truthy (Some id)), Htid by done. simpl.
    fold user_id. unfold bind, catch_storage. rewrite Hupd. reflexivity.
  - by apply (updated_item_is_stored store).
  - repeat split; by rewrite Hl.
Qed.

Lemma edit_stores_the_posted_title_witness :
  exists (new : item) (w' : world table),
    FlaskApp.edit notes_store None later
      (Request "POST" ∅ posted_blank_title) (World stocked_table [])
    = (Ok (Http (Redirect "index")), w') /\
    lookup_item (backend w') (note_key notes_store "n1" (Some "ana"))
    = Some new /\
    new !! "title" = Some "" /\
    new !! "content" = groceries !! "content" /\
    new !! "created_at" = groceries !! "created_at" /\
    new !! "updated_at" = Some (now_iso later).
Proof.
  apply (edit_stores_the_posted_title notes_store stocked_table [] None later
           "n1" "" posted_blank_title groceries (notes_store_agrees [groceries]) eq_refl
           notes_store_keys_apart (nonempty_string _ _)).
  - vm_compute. reflexivity.
  - vm_compute. reflexivity.
  - vm_compute. reflexivity.
  - intros _. vm_compute. reflexivity.
  - vm_compute. reflexivity.
Defined.

(** X17: for an id and a user id that are not empty, the edit form of a
    note that is not in the table is answered with status 404, and that of a
    note that is there shows the stored item; the table is only read. *)
Theorem edit_form_shows_the_note_or_404 :
  forall (store : DynamoNotes.t) (t : table) (cs : list call)
         (default_user_id : option string) (env : readings)
         (id : string) (query : item),
    agrees store t -> healthy t ->
    id <> "" ->
    query !! "id" = Some id ->
    sort_key_supplied store (or_opt (query !! "user_id") default_user_id) ->
    exists w' : world table,
      backend w' = t /\
      FlaskApp.edit store default_user_id env (Request "GET" query ∅)
        (World t cs)
      = (Ok (match lookup_item t
                     (note_key store id
                        (or_opt (query !! "user_id") default_user_id)) with
             | Some it =>
                 if bool_decide (it = ∅)
                 then Http (Response "not found" 404)
                 else EditPage it (DynamoNotes.key_name store)
                        (or_opt default_user_id
                           (or_opt (query !! "user_id") default_user_id))
             | None => Http (Response "not found" 404)
             end), w').
Proof.
  intros store t cs duid env id query Ha Hh Hid Hqid Hu.
  assert (Htid : truthy (Some id) = true) by (by destruct id).
  set (user_id := or_opt (query !! "user_id") duid) in *.
  destruct (get_on_table store t cs id user_id Ha Hh Hid Hu) as (key & Hget).
  exists (World t (cs ++ [GetItem key])). split; [done|].
  unfold FlaskApp.edit. simpl.
  rewrite Hqid, (or_opt_truthy (Some id)), Htid by done. simpl.
  fold user_id. unfold bind, catch_storage. rewrite Hget.
  destruct (lookup_item t (note_key store id user_id)) as [it|]; [|done].
  by destruct (bool_decide (it = ∅)).
Qed.

Lemma edit_form_shows_the_note_or_404_witness :
  exists w' : world table,
    backend w' = stocked_table /\
    FlaskApp.edit notes_store (Some "ana") later
      (Request "GET" query_unknown ∅) (World stocked_table [])
    = (Ok (Http (Response "not found" 404)), w').
Proof.
  destruct (edit_form_shows_the_note_or_404 notes_store stocked_table []
              (Some "ana") later "n7" query_unknown
              (notes_store_agrees [groceries]) eq_refl (nonempty_string _ _))
    as (w' & Hb & Hrun).
  - vm_compute. reflexivity.
  - intros _. vm_compute. reflexivity.
  - exists w'. split; [exact Hb|]. rewrite Hrun. f_equal.
Defined.

(** The notes page is the sorted list of what [list] returned. *)
Lemma index_page {B} `{Backend B} store default_user_id (w w' : world B) l :
  DynamoNotes.list store default_user_id w = (Ok l, w') ->
  exists page,
    FlaskApp.index store default_user_id w
    = (Ok (NotesPage page (DynamoNotes.key_name store) default_user_id), w')
    /\ page ≡ₚ l.
Proof.
  intros Hl. exists (sorted_newest_first l). split.
  - unfold FlaskApp.index, bind. by rewrite Hl.
  - apply sorted_newest_first_perm.
Qed.

(** ** Adding and deleting through the web UI *)

(** X25: a note posted with a non-empty title and content and no user id of
    its own is created under the default user id, the handler redirects, and
    the notes page that follows shows the note with the posted title and
    content, where the generated id is not empty and the table with the new
    note fits in one page of a scan. *)
Theorem added_note_is_on_the_notes_page :
  forall (store : DynamoNotes.t) (t : table) (cs : list call)
         (default_user_id : option string) (env : readings)
         (title content : string) (fields : item),
    agrees store t -> healthy t -> keys_apart store ->
    sort_key_supplied store default_user_id ->
    title <> "" -> content <> "" ->
    fields !! "title" = Some title ->
    fields !! "content" = Some content ->
    truthy (fields !! "user_id") = false ->
    uuid4 env <> "" ->
    (total_size (items t)
     + item_size (created_item store env title content default_user_id
                    (or_opt (fields !! "client_id") None))
     <= page_bytes)%N ->
    exists (it : item) (page : list item) (w1 w2 : world table),
      add store default_user_id env fields (World t cs)
      = (Ok (Redirect "index"), w1) /\
      FlaskApp.index store default_user_id w1
      = (Ok (NotesPage page (DynamoNotes.key_name store) default_user_id),
         w2) /\
      it ∈ page /\
      it !! "title" = Some title /\
      it !! "content" = Some content.
Proof.
  intros store t cs duid env title content fields Ha Hh Hka Hu Ht Hc
    Hft Hfc Hfu Huuid Hfit.
  assert (Htt : truthy (Some title) = true) by (by destruct title).
  assert (Htc : truthy (Some content) = true) by (by destruct content).
  set (cid := or_opt (fields !! "client_id") None) in *.
  set (it := created_item store env title content duid cid) in *.
  set (t1 := set_items (filter (other_key t (key_of t it)) (items t) ++ [it]) t).
  assert (Hid : it !! DynamoNotes.key_name store <> Some "").
  { apply (created_id_nonempty store t); [done..|]. by apply or_str_nonempty. }
  pose proof (create_on_table store t cs env title content duid cid Ha Hh Hu
                Hid) as Hcreate.
  cbv zeta in Hcreate. fold it t1 in Hcreate.
  assert (Hp : one_page (items t1)) by (by apply one_page_after_put).
  pose proof (list_on_table store t1 (cs ++ [PutItem it]) duid Hh Hp)
    as Hlist.
  set (l := match list_filter store duid with
            | Some (a, v) => filter (fun x : item => x !! a = Some v) (items t1)
            | None => items t1
            end) in Hlist.
  assert (Hin : it ∈ l).
  { unfold l, list_filter.
    destruct (truthy duid && truthy (DynamoNotes.sort_key_name store)) eqn:Hf.
    - apply andb_true_iff in Hf as [_ Hs]. apply list_elem_of_filter. split.
      + by apply created_item_sort.
      + unfold t1. simpl. apply elem_of_app. right. apply list_elem_of_here.
    - unfold t1. simpl. apply elem_of_app. right. apply list_elem_of_here. }
  destruct (index_page store duid _ _ l Hlist) as (page & Hidx & Hperm).
  exists it, page. do 2 eexists. split; [|split; [exact Hidx|split]].
  - unfold add. rewrite Hft, Hfc, Htt, Htc, (or_opt_falsy _ duid) by done.
    simpl. fold cid. unfold bind. rewrite Hcreate. reflexivity.
  - by rewrite Hperm.
  - destruct (created_item_fields store env title content duid cid Hka)
      as (H1 & H2 & _); [|done].
    intros Hs. by destruct (agrees_sorted _ _ Ha Hs) as (_ & _ & Hd).
Qed.

Lemma added_note_is_on_the_notes_page_witness :
  exists (it : item) (page : list item) (w1 w2 : world table),
    add notes_store (Some "ana") noon posted_note (World notes_table [])
    = (Ok (Redirect "index"), w1) /\
    FlaskApp.index notes_store (Some "ana") w1
    = (Ok (NotesPage page "id" (Some "ana")), w2) /\
    it ∈ page /\
    it !! "title" = Some "Groceries" /\
    it !! "content" = Some "Milk".
Proof.
  apply (added_note_is_on_the_notes_page notes_store notes_table []
           (Some "ana") noon "Groceries" "Milk" posted_note
           (notes_store_agrees []) eq_refl notes_store_keys_apart
           (fun _ => eq_refl) (nonempty_string _ _) (nonempty_string _ _)).
  - vm_compute. reflexivity.
  - vm_compute. reflexivity.
  - vm_compute. reflexivity.
  - discriminate.
  - apply N.leb_le. vm_compute. reflexivity.
Defined.

(** X26: the handler [delete] removes the note whose id and user id, both
    not empty, the request carries, by a GET (from the query string) as well
    as by a POST (from the form), and redirects to the notes page; afterwards
    no note bears the key. *)
Theorem web_delete_removes_the_note :
  forall (store : DynamoNotes.t) (t : table) (cs : list call)
         (default_user_id : option string) (req : request) (id : string),
    agrees store t -> healthy t ->
    id <> "" ->
    delete_fields req !! "id" = Some id ->
    sort_key_supplied store
      (or_opt (delete_fields req !! "user_id") default_user_id) ->
    exists w' : world table,
      FlaskApp.delete store default_user_id req (World t cs)
      = (Ok (Http (Redirect "index")), w') /\
      lookup_item (backend w')
        (note_key store id
           (or_opt (delete_fields req !! "user_id") default_user_id))
      = None.
Proof.
  intros store t cs duid req id Ha Hh Hid Hfid Hu.
  assert (Htid : truthy (Some id) = true) by (by destruct id).
  set (user_id := or_opt (delete_fields req !! "user_id") duid) in *.
  destruct (delete_on_table store t cs id user_id Ha Hh Hid Hu)
    as (key & Hdel).
  eexists. split.
  - unfold FlaskApp.delete. fold (delete_fields req).
    rewrite Hfid, (or_opt_truthy (Some id)), Htid by done. simpl.
    fold user_id. unfold bind, catch_storage. rewrite Hdel. reflexivity.
  - exact (f_equal head
             (filter_bears_other t (note_key store id user_id) (items t))).
Qed.

Lemma web_delete_removes_the_note_witness :
  exists w' : world table,
    FlaskApp.delete notes_store None (Request "GET" query_n1 ∅)
      (World stocked_table [])
    = (Ok (Http (Redirect "index")), w') /\
    lookup_item (backend w') (note_key notes_store "n1" (Some "ana")) = None.
Proof.
  apply (web_delete_removes_the_note notes_store stocked_table [] None
           (Request "GET" query_n1 ∅) "n1" (notes_store_agrees [groceries])
           eq_refl (nonempty_string _ _)).
  - vm_compute. reflexivity.
  - intros _. vm_compute. reflexivity.
Defined.

(** * Properties of the command line *)

Ltac run_cli :=
  unfold Cli.main, Cli.func, Cli.cmd_add, Cli.cmd_get, Cli.cmd_list,
    Cli.cmd_update, Cli.cmd_delete, Cli.cmd_ui, Cli.get_store, p_bind,
    call_new, call_store, print, p_ret, p_raise.

(** X18: once the arguments are parsed, [main] lets no exception out: for
    every subcommand but a [ui] that starts the server, every backend and
    every behaviour of the constructor, it returns one of the statuses 0, 1, 3
    and 4, or the process exits by the [sys.exit(2)] of [cmd_get]. *)
Theorem main_lets_no_exception_out :
  forall (B : Type) (HB : Backend B)
         (new_store : string -> option string -> option string ->
                      result DynamoNotes.t)
         (flask : bool) (env : readings) (args : namespace) (p : process B),
    match ns_func args with
    | Some (CmdUi _ _) => flask = false
    | _ => True
    end ->
    is_exit_status (Cli.main new_store flask env args p).1 = true.
Proof.
  intros B HB new_store flask env args p Hui. run_cli.
  destruct (ns_func args) as [c|]; [|done].
  destruct (new_store _ _ _) as [store|e0] eqn:Hnew.
  - destruct c; simpl.
    + destruct (DynamoNotes.create _ _ _ _ _ _ _) as [[it|e] w]; [done|].
      by destruct e.
    + destruct (DynamoNotes.get _ _ _ _) as [[[it|]|e] w].
      * by destruct (bool_decide (it = ∅)).
      * done.
      * by destruct e.
    + destruct (DynamoNotes.list _ _ _) as [[l|e] w]; [done|]. by destruct e.
    + destruct (DynamoNotes.update _ _ _ _ _ _ _) as [[it|e] w]; [done|].
      by destruct e.
    + destruct (DynamoNotes.delete _ _ _ _) as [[[]|e] w]; [done|].
      by destruct e.
    + by subst flask.
  - destruct c; simpl; try (by destruct e0). by subst flask.
Qed.

Lemma main_lets_no_exception_out_witness :
  is_exit_status
    (Cli.main (new_store_on stocked_table) true noon
       (bare_args (CmdGet "n1")) (Process (World throttled_table []) [])).1
  = true.
Proof.
  apply (main_lets_no_exception_out table _ (new_store_on stocked_table) true
           noon (bare_args (CmdGet "n1"))
           (Process (World throttled_table []) []) I).
Defined.

Lemma new_store_on_table (t : table) name key_name sort_key_name :
  new_store_on t name key_name sort_key_name
  = Ok (DynamoNotes.Store (hash_name t)
          (if truthy sort_key_name then sort_key_name
           else match range_name t with
                | Some r => Some r
                | None => sort_key_name
                end)).
Proof.
  unfold new_store_on. rewrite init_on_table.
  by destruct sort_key_name as [[|a s]|], (range_name t).
Qed.

Lemma new_store_without_boto3_raises name key_name sort_key_name :
  new_store_without_boto3 name key_name sort_key_name
  = Raise (StorageError
      "boto3 is not installed. Install requirements.txt and try again.").
Proof. reflexivity. Qed.

(** X19: [get] of a note that is not in the table prints [Note not found]
    on the standard error and ends the process with status 2: the
    [SystemExit] of [cmd_get] is not caught by [main], and nothing is
    printed on the standard output. *)
Theorem get_of_an_absent_note_exits_2 :
  forall (B : Type) (HB : Backend B)
         (new_store : string -> option string -> option string ->
                      result DynamoNotes.t)
         (flask : bool) (env : readings) (args : namespace) (id : string)
         (store : DynamoNotes.t) (p : process B) (w' : world B),
    ns_func args = Some (CmdGet id) ->
    new_store (ns_table args) (ns_key_name args) (ns_sort_key args)
    = Ok store ->
    DynamoNotes.get store id (ns_user_id args) (proc_world p)
    = (Ok None, w') ->
    Cli.main new_store flask env args p
    = (Raised (SystemExit 2),
       Process w' (console p ++ [PrintErr "Note not found"])).
Proof.
  intros B HB new_store flask env args id store p w' Hf Hnew Hget.
  run_cli. rewrite Hf. simpl. rewrite Hnew, Hget. reflexivity.
Qed.

Lemma get_of_an_absent_note_exits_2_witness :
  Cli.main (new_store_on plain_table) true noon (bare_args (CmdGet "n7"))
    (Process (World plain_table []) [])
  = (Raised (SystemExit 2),
     Process (World plain_table [GetItem (plain_key plain_store "n7")])
       [PrintErr "Note not found"]).
Proof.
  apply (get_of_an_absent_note_exits_2 table _ (new_store_on plain_table)
           true noon (bare_args (CmdGet "n7")) "n7" plain_store
           (Process (World plain_table []) [])
           (World plain_table [GetItem (plain_key plain_store "n7")])
           eq_refl).
  - apply new_store_on_table.
  - vm_compute. reflexivity.
Defined.





(** X22: when the constructor raises a [StorageError], as it does when boto3
    is not installed, every subcommand that opens the store makes no remote
    call, prints the [Storage error:] line with the message, and [main]
    returns status 3. *)
Theorem constructor_failure_exits_3 :
  forall (B : Type) (HB : Backend B)
         (new_store : string -> option string -> option string ->
                      result DynamoNotes.t)
         (flask : bool) (env : readings) (args : namespace) (c : command)
         (m : string) (p : process B),
    ns_func args = Some c ->
    new_store (ns_table args) (ns_key_name args) (ns_sort_key args)
    = Raise (StorageError m) ->
    match c with
    | CmdUi _ _ => flask = true
    | _ => True
    end ->
    Cli.main new_store flask env args p
    = (Returned 3%Z,
       Process (proc_world p)
         (console p ++ [PrintErr ("Storage error: " +:+ m)])).
Proof.
  intros B HB new_store flask env args c m p Hf Hnew Hc.
  run_cli. rewrite Hf.
  destruct c; simpl; try subst flask; simpl; by rewrite Hnew.
Qed.

Lemma constructor_failure_exits_3_witness :
  Cli.main new_store_without_boto3 true noon (bare_args CmdList)
    (Process (World stocked_table []) [])
  = (Returned 3%Z,
     Process (World stocked_table [])
       [PrintErr ("Storage error: " +:+
          "boto3 is not installed. Install requirements.txt and try again.")]).
Proof.
  apply (constructor_failure_exits_3 table _ new_store_without_boto3 true
           noon (bare_args CmdList) CmdList
           "boto3 is not installed. Install requirements.txt and try again."
           (Process (World stocked_table []) []) eq_refl eq_refl I).
Defined.

(** X23: without Flask, [ui] prints that flask is not installed, opens no
    store and makes no remote call; [cmd_ui] returns 2, but [main] drops
    what the command returns and returns status 0. *)
Theorem ui_without_flask_exits_0 :
  forall (B : Type) (HB : Backend B)
         (new_store : string -> option string -> option string ->
                      result DynamoNotes.t)
         (env : readings) (args : namespace) (host : string) (port : Z)
         (p : process B),
    ns_func args = Some (CmdUi host port) ->
    Cli.cmd_ui new_store false args host port p
    = (Returned (Some 2%Z),
       Process (proc_world p)
         (console p ++ [PrintErr
            "flask not installed. Install requirements.txt to use the web UI."]))
    /\
    Cli.main new_store false env args p
    = (Returned 0%Z,
       Process (proc_world p)
         (console p ++ [PrintErr
            "flask not installed. Install requirements.txt to use the web UI."])).
Proof.
  intros B HB new_store env args host port p Hf.
  split; [reflexivity|]. run_cli. by rewrite Hf.
Qed.

Lemma ui_without_flask_exits_0_witness :
  Cli.main new_store_without_boto3 false noon
    (bare_args (CmdUi "127.0.0.1" 5000))
    (Process (World stocked_table []) [])
  = (Returned 0%Z,
     Process (World stocked_table [])
       [PrintErr
          "flask not installed. Install requirements.txt to use the web UI."]).
Proof.
  destruct (ui_without_flask_exits_0 table _ new_store_without_boto3 noon
              (bare_args (CmdUi "127.0.0.1" 5000)) "127.0.0.1" 5000
              (Process (World stocked_table []) []) eq_refl) as (_ & Hmain).
  exact Hmain.
Defined.

(** X24: on a healthy table the store was configured for, [delete] with an
    id and a user id that are not empty prints [deleted] and [main] returns
    status 0 whether or not a note with that id was there; afterwards no note
    bears the key. *)
Theorem delete_command_reports_deleted :
  forall (new_store : string -> option string -> option string ->
                      result DynamoNotes.t)
         (flask : bool) (env : readings) (args : namespace) (id : string)
         (store : DynamoNotes.t) (t : table) (cs : list call)
         (out : list output),
    ns_func args = Some (CmdDelete id) ->
    new_store (ns_table args) (ns_key_name args) (ns_sort_key args)
    = Ok store ->
    agrees store t -> healthy t ->
    id <> "" -> sort_key_supplied store (ns_user_id args) ->
    exists p' : process table,
      Cli.main new_store flask env args (Process (World t cs) out)
      = (Returned 0%Z, p') /\
      console p' = out ++ [PrintLine "deleted"] /\
      lookup_item (backend (proc_world p'))
        (note_key store id (ns_user_id args)) = None.
Proof.
  intros new_store flask env args id store t cs out Hf Hnew Ha Hh Hid Hu.
  destruct (delete_on_table store t cs id (ns_user_id args) Ha Hh Hid Hu)
    as (key & Hdel).
  change (World t cs) with (proc_world (Process (World t cs) out)) in Hdel.
  eexists. split; [|split].
  - run_cli. rewrite Hf. simpl. rewrite Hnew, Hdel. reflexivity.
  - reflexivity.
  - simpl.
    exact (f_equal head
             (filter_bears_other t (note_key store id (ns_user_id args))
                (items t))).
Qed.

Lemma delete_command_reports_deleted_witness :
  exists p' : process table,
    Cli.main (new_store_on plain_table) true noon
      (bare_args (CmdDelete "n7")) (Process (World plain_table []) [])
    = (Returned 0%Z, p') /\
    console p' = [PrintLine "deleted"] /\
    lookup_item (backend (proc_world p')) (note_key plain_store "n7" None)
    = None.
Proof.
  apply (delete_command_reports_deleted (new_store_on plain_table) true noon
           (bare_args (CmdDelete "n7")) "n7" plain_store plain_table [] []
           eq_refl).
  - apply new_store_on_table.
  - apply (plain_store_agrees []).
  - reflexivity.
  - discriminate.
  - discriminate.
Defined.
